(** * remix-auth-twilio: the [TwilioStrategy.authenticate] transition

    A shallow embedding of [src/index.ts].  One call of [authenticate]
    is one transition of the phone / code verification state machine.
    The embedding keeps the control flow of the TypeScript source: the
    [try] block with its early exits, the [catch] block that funnels
    every thrown value except a 302 [Response] through [this.failure],
    and the two statements after it.

    Asynchronous calls are awaited one after the other in the source, so
    a promise is modelled by its settled value: [Ok a] for a fulfilled
    promise, [Throw t] for a rejected one.  A ghost trace records, in
    program order, every call that leaves the strategy. *)

From Stdlib Require Import ZArith.
From stdpp Require Import gmap strings list fin_maps.

Open Scope string_scope.
Set Warnings "-register-all".

(** ** JavaScript values, as far as the strategy looks at them *)

(** The strategy stores and returns the user as an opaque value; the only
    thing it ever asks of one is its truthiness ([!user]) and whether it
    is nullish ([??]). *)
Inductive jsval : Type :=
| JUndefined
| JNull
| JBool (b : bool)
| JNum (n : Z)
| JStr (s : string)
| JObj (fields : list (string * jsval)).

(** [!!v] *)
Definition truthy (v : jsval) : bool :=
  match v with
  | JUndefined | JNull => false
  | JBool b => b
  | JNum n => negb (n =? 0)%Z
  | JStr s => negb (String.eqb s "")
  | JObj _ => true
  end.

(** [v ?? d] *)
Definition nullish_coalesce (v d : jsval) : jsval :=
  match v with
  | JUndefined | JNull => d
  | _ => v
  end.

(** Truthiness of an optional string ([undefined] or a string). *)
Definition truthy_str (o : option string) : bool :=
  match o with
  | None => false
  | Some s => negb (String.eqb s "")
  end.

(** ** Sessions *)

(** A session is a key-value scope with ordinary and flashed entries. *)
Record session : Type := MkSession {
  data : gmap string jsval;
  flashed : gmap string jsval
}.

Module Session.

Definition empty : session := MkSession ∅ ∅.

(** Modelled from the spec: the session handle of the SessionStore
    collaborator (the [Session] object of the web framework is not under
    src/).  [get] reads a key; a flashed value is visible on that read
    only and is cleared by it. *)
Definition get (name : string) (s : session) : jsval * session :=
  match data s !! name with
  | Some v => (v, s)
  | None =>
      match flashed s !! name with
      | Some v => (v, MkSession (data s) (delete name (flashed s)))
      | None => (JUndefined, s)
      end
  end.

(** Modelled from the spec: [set(handle, key, value)] of the SessionStore
    collaborator. *)
Definition set (name : string) (v : jsval) (s : session) : session :=
  MkSession (<[name := v]> (data s)) (flashed s).

(** Modelled from the spec: [flash(handle, key, value)] of the SessionStore
    collaborator; the value is kept apart until its next read. *)
Definition flash (name : string) (v : jsval) (s : session) : session :=
  MkSession (data s) (<[name := v]> (flashed s)).

(** Modelled from the spec: [unset(handle, key)] of the SessionStore
    collaborator; the spec uses it to clear flashed keys, so it removes
    the key whether it was set or flashed. *)
Definition unset (name : string) (s : session) : session :=
  MkSession (delete name (data s)) (delete name (flashed s)).

(** What the next request's first read of [name] will see. *)
Definition peek (name : string) (s : session) : jsval := fst (get name s).

End Session.

(** The serialized session that travels in the [Set-Cookie] header. *)
Inductive cookie : Type := Serialized (s : session).

(** The [SessionStorage] capability handed to [authenticate]. *)
Record SessionStorage : Type := {
  getSession : option cookie -> session;
  commitSession : session -> cookie
}.

(** Modelled from the spec: a conforming cookie-backed SessionStore (its
    implementation is not under src/): a request without cookie starts from
    the empty session, and [persist] serializes the handle as it is. *)
Definition cookieSessionStorage : SessionStorage := {|
  getSession c := match c with Some (Serialized s) => s | None => Session.empty end;
  commitSession s := Serialized s
|}.

(** ** Thrown values *)

Inductive error_class : Type :=
| PlainError      (** [new Error(message)] *)
| FailureError.   (** the typed error of the failure transition *)

(** An [Error] object: its class, its [message] and its [cause]. *)
Inductive error : Type :=
| MkError (cls : error_class) (msg : string) (cause : option error).

Definition message (e : error) : string :=
  match e with MkError _ m _ => m end.

Definition error_cls (e : error) : error_class :=
  match e with MkError c _ _ => c end.

(** [new Error(message)] *)
Definition new_Error (m : string) : error := MkError PlainError m None.

(** A [Response] object, as far as the strategy builds or inspects one. *)
Record response : Type := MkResponse {
  status : Z;
  location : option string;
  set_cookie : option cookie
}.

(** Modelled from the spec: the redirect instruction (target URL and updated
    cookie header) that the framework's [redirect] helper, which is not
    under src/, builds from [redirect(url, { headers: { "Set-Cookie": c } })].
    Its status is 302, the status the [catch] block tests for. *)
Definition redirect (url : string) (c : cookie) : response :=
  MkResponse 302 (Some url) (Some c).

(** Anything JavaScript can [throw]. *)
Inductive thrown : Type :=
| ThrowResponse (r : response)
| ThrowError (e : error)
| ThrowValue (v : jsval).

(** A settled promise. *)
Inductive result (A : Type) : Type :=
| Ok (a : A)
| Throw (t : thrown).
Arguments Ok {A} a.
Arguments Throw {A} t.

(** ** Requests and forms *)

(** A [FormDataEntryValue] is a string or a file. *)
Inductive form_entry : Type :=
| EntryString (s : string)
| EntryFile (name : string).

(** [String(entry)] *)
Definition String_of (e : form_entry) : string :=
  match e with
  | EntryString s => s
  | EntryFile _ => "[object File]"
  end.

Definition entry_truthy (e : form_entry) : bool :=
  match e with
  | EntryString s => negb (String.eqb s "")
  | EntryFile _ => true
  end.

(** [FormData]: the submitted fields in order, duplicates allowed. *)
Definition FormData : Type := list (string * form_entry).

(** [Object.fromEntries(formData.entries())]: a later field of the same
    name overwrites an earlier one. *)
Definition fromEntries (fd : FormData) : gmap string form_entry :=
  fold_left (fun m kv => <[kv.1 := kv.2]> m) fd ∅.

Record request : Type := MkRequest {
  req_cookie : option cookie;          (** [request.headers.get("Cookie")] *)
  req_formData : result FormData       (** [await request.formData()] *)
}.

(** The fields of the framework's [AuthenticateOptions] that the transition
    and the failure transition read. *)
Record AuthenticateOptions : Type := MkOptions {
  sessionKey : string;
  sessionErrorKey : string;
  successRedirect : option string;
  failureRedirect : option string
}.

(** ** The ghost trace and the monad of the transition *)

Inductive event : Type :=
| CallFormatPhoneNumber (raw : string)
| CallSendCode (phone : string)
| CallValidateCode (code phone : string)
| CallVerify (phone : string) (formData : FormData)
| CallFailure (msg : string)
| CallSuccess (user : jsval)
| CommitSession (s : session).

(** A computation yields the calls it made and how it settled. *)
Definition M (A : Type) : Type := list event * result A.

Definition ret {A} (a : A) : M A := ([], Ok a).

Definition throw {A} (t : thrown) : M A := ([], Throw t).

Definition bind {A B} (m : M A) (k : A -> M B) : M B :=
  match m with
  | (tr, Ok a) => let (tr', r) := k a in ((tr ++ tr')%list, r)
  | (tr, Throw t) => (tr, Throw t)
  end.

(** [try { m } catch (error) { h error }] *)
Definition try_catch {A} (m : M A) (h : thrown -> M A) : M A :=
  match m with
  | (tr, Ok a) => (tr, Ok a)
  | (tr, Throw t) => let (tr', r) := h t in ((tr ++ tr')%list, r)
  end.

(** Record a call, then settle as the callee did. *)
Definition call {A} (e : event) (r : result A) : M A := ([e], r).

Definition trace {A} (m : M A) : list event := m.1.
Definition outcome {A} (m : M A) : result A := m.2.

Notation "'let*' x ':=' c1 'in' c2" := (bind c1 (fun x => c2))
  (at level 10, x pattern, c1 at level 100, c2 at level 200).

(** The type of a call that never returns ([Promise<never>]). *)
Definition never : Type := Empty_set.

(** [return await m] for an [m] that never returns. *)
Definition return_never {A} (m : M never) : M A :=
  let* x := m in match x with end.

(** ** The base class [Strategy] *)

(** [TwilioStrategy] extends the [Strategy] class of the authentication
    framework and ends every path that does not redirect by itself in one of
    the two inherited helpers.  The embedding of [authenticate] is written
    against this interface. *)
Class StrategyBase : Type := {
  failure : string -> request -> SessionStorage -> AuthenticateOptions ->
            option error -> M never;
  success : jsval -> request -> SessionStorage -> AuthenticateOptions ->
            M jsval
}.

(** [await sessionStorage.commitSession(session)] *)
Definition commit (sessionStorage : SessionStorage) (s : session) : M cookie :=
  call (CommitSession s) (Ok (commitSession sessionStorage s)).

(** Modelled from the spec: the failure transition, the inherited
    [Strategy.failure] helper, which is not under src/.  It writes the
    failure message into the flashed error key of the request's session,
    persists the session, and then signals a redirect to [failureRedirect]
    when one is configured; otherwise it propagates the failure as a typed
    error (an [Error] object carrying the message) without a redirect. *)
Definition spec_failure (msg : string) (req : request)
    (sessionStorage : SessionStorage) (options : AuthenticateOptions)
    (cause : option error) : M never :=
  let session := getSession sessionStorage (req_cookie req) in
  let session := Session.flash (sessionErrorKey options) (JStr msg) session in
  let* c := commit sessionStorage session in
  match failureRedirect options with
  | Some target => throw (ThrowResponse (redirect target c))
  | None => throw (ThrowError (MkError FailureError msg cause))
  end.

(** Modelled from the spec: the inherited [Strategy.success] helper, which
    is not under src/: the terminal state [Authenticated] returns the stored
    principal. *)
Definition spec_success (user : jsval) (req : request)
    (sessionStorage : SessionStorage) (options : AuthenticateOptions)
    : M jsval :=
  ret user.

#[export] Instance spec_base : StrategyBase := {|
  failure := spec_failure;
  success := spec_success
|}.

(** ** The verification provider and the phone formatter *)

Record VerificationInstance : Type := { verification_status : string }.

Record VerificationCheckInstance : Type := { check_status : string }.

Definition SendCodeFunction : Type := string -> result VerificationInstance.

(** Arguments in the order of the source's object pattern [{ code, phone }]. *)
Definition ValidateCodeFunction : Type :=
  string -> string -> result VerificationCheckInstance.

(** A formatter returns the normalized phone or throws. *)
Definition FormatPhoneNumberFunction : Type := string -> result string.

Definition StrategyVerifyCallback : Type :=
  string -> FormData -> request -> result jsval.

Record TwilioStrategyOptions : Type := {
  accountSID : string;
  authToken : string;
  serviceSID : string;
  opt_sendCode : option SendCodeFunction;
  opt_validateCode : option ValidateCodeFunction;
  opt_formatPhoneNumber : option FormatPhoneNumberFunction
}.

(** The client of the verification service:
    [client.verify.v2.services(sid).verifications.create({ to, channel })]
    and [....verificationChecks.create({ to, code })]. *)
Record Twilio : Type := {
  verifications_create : string -> string -> string -> result VerificationInstance;
  verificationChecks_create : string -> string -> string -> result VerificationCheckInstance
}.

(** The result of the [phone] package. *)
Record PhoneResult : Type := { isValid : bool; phoneNumber : string }.

Record TwilioStrategy : Type := {
  name : string;
  sessionPhoneKey : string;
  client : Twilio;
  options_ : TwilioStrategyOptions;
  sendCode : SendCodeFunction;
  validateCode : ValidateCodeFunction;
  formatPhoneNumber : FormatPhoneNumberFunction;
  verify : StrategyVerifyCallback
}.

Section Defaults.

(** The two packages the defaults call into. *)
Variable twilio : string -> string -> Twilio.
Variable phone : string -> PhoneResult.

Definition defaultSendCode (client : Twilio) (options : TwilioStrategyOptions)
    : SendCodeFunction :=
  fun phone => verifications_create client (serviceSID options) phone "sms".

(** [.catch((error) => { console.error(error); throw new Error(...) })]:
    whatever the client rejects with is replaced. *)
Definition defaultValidateCode (client : Twilio) (options : TwilioStrategyOptions)
    : ValidateCodeFunction :=
  fun code phone =>
    match verificationChecks_create client (serviceSID options) phone code with
    | Ok v => Ok v
    | Throw _ =>
        Throw (ThrowError (new_Error "Sorry, that code is invalid. Please try again."))
    end.

Definition defaultFormatPhoneNumber : FormatPhoneNumberFunction :=
  fun num =>
    let result := phone num in
    if negb (isValid result) then
      Throw (ThrowError (new_Error "Invalid phone number."))
    else Ok (phoneNumber result).

(** [a ?? b] on an optional function. *)
Definition or_default {A} (o : option A) (d : A) : A :=
  match o with Some a => a | None => d end.

(** The constructor. *)
Definition new_TwilioStrategy (options : TwilioStrategyOptions)
    (verify : StrategyVerifyCallback) : TwilioStrategy :=
  let client := twilio (accountSID options) (authToken options) in
  {| name := "twilio";
     sessionPhoneKey := "twilio:phone";
     client := client;
     options_ := options;
     sendCode := or_default (opt_sendCode options) (defaultSendCode client options);
     validateCode :=
       or_default (opt_validateCode options) (defaultValidateCode client options);
     formatPhoneNumber :=
       or_default (opt_formatPhoneNumber options) defaultFormatPhoneNumber;
     verify := verify |}.

End Defaults.

(** ** [TwilioStrategy.authenticate] *)

Section Authenticate.

Context `{StrategyBase}.

(** [JSON.stringify(error, null, 2)] on a thrown value. *)
Variable JSON_stringify : thrown -> string.

Variable self : TwilioStrategy.
Variable req : request.
Variable sessionStorage : SessionStorage.
Variable options : AuthenticateOptions.

(** [return await this.failure(message, request, sessionStorage, options, cause)] *)
Definition call_failure (msg : string) (cause : option error) : M jsval :=
  let* _ := call (CallFailure msg) (Ok tt) in
  return_never (failure msg req sessionStorage options cause).

(** [form.phone && this.formatPhoneNumber(String(form.phone))]: a missing
    or empty field is its own (falsy) value, anything else is formatted. *)
Definition phone_of_form (form : gmap string form_entry) : M (option string) :=
  match form !! "phone" with
  | None => ret None
  | Some e =>
      if entry_truthy e then
        let* p := call (CallFormatPhoneNumber (String_of e))
                       (formatPhoneNumber self (String_of e)) in
        ret (Some p)
      else ret (Some (String_of e))
  end.

(** [form.code && String(form.code)] *)
Definition code_of_form (form : gmap string form_entry) : option string :=
  match form !! "code" with
  | None => None
  | Some e => if entry_truthy e then Some (String_of e) else Some (String_of e)
  end.

(** The body of the [try] block; [session] is the handle read at the top
    of [authenticate].  After the guard on [successRedirect] the target is
    a non-empty string. *)
Definition try_block (session : session) : M jsval :=
  if negb (truthy_str (successRedirect options)) then
    throw (ThrowError (new_Error "Missing required `successRedirect` property."))
  else
    let target := default "" (successRedirect options) in
    let* formData := (([], req_formData req) : M FormData) in
    let form := fromEntries formData in
    let* phone := phone_of_form form in
    let code := code_of_form form in
    if negb (truthy_str phone) then
      call_failure "Missing phone number." None
    else
      let phone := default "" phone in
      if truthy_str code then
        let code := default "" code in
        let* validate := call (CallValidateCode code phone)
                              (validateCode self code phone) in
        if negb (String.eqb (check_status validate) "approved") then
          call_failure "Sorry, that code is invalid. Please try again." None
        else
          let* user := call (CallVerify phone formData)
                            (verify self phone formData req) in
          let session := Session.set (sessionKey options) user session in
          let session := Session.unset (sessionPhoneKey self) session in
          let session := Session.unset (sessionErrorKey options) session in
          let* c := commit sessionStorage session in
          throw (ThrowResponse (redirect target c))
      else
        let* _ := call (CallSendCode phone) (sendCode self phone) in
        let session := Session.flash (sessionPhoneKey self) (JStr phone) session in
        let session := Session.unset (sessionErrorKey options) session in
        let* c := commit sessionStorage session in
        throw (ThrowResponse (redirect target c)).

(** The [catch (error)] block. *)
Definition catch_block (error : thrown) : M jsval :=
  let unknown :=
    call_failure "Unknown Error." (Some (new_Error (JSON_stringify error))) in
  match error with
  | ThrowResponse r =>
      if (status r =? 302)%Z then throw error else unknown
  | ThrowError e => call_failure (message e) (Some e)
  | ThrowValue _ => unknown
  end.

(** [authenticate(request, sessionStorage, options)].  Every path through
    the [try] and the [catch] block ends in [return] or [throw], so the two
    statements after the first [if] run only when it was skipped. *)
Definition authenticate : M jsval :=
  let session := getSession sessionStorage (req_cookie req) in
  let '(v, session) := Session.get (sessionKey options) session in
  let user := nullish_coalesce v JNull in
  if negb (truthy user) then
    try_catch (try_block session) catch_block
  else if negb (truthy user) then
    throw (ThrowError (new_Error "Unable to authenticate."))
  else
    let* _ := call (CallSuccess user) (Ok tt) in
    success user req sessionStorage options.

End Authenticate.

(** ** Vocabulary of the specification *)

(** The session the request arrives with. *)
Definition request_session (st : SessionStorage) (req : request) : session :=
  getSession st (req_cookie req).

(** What [authenticate] finds under the session key, [null] if nothing. *)
Definition stored_user (st : SessionStorage) (req : request)
    (opts : AuthenticateOptions) : jsval :=
  nullish_coalesce (Session.get (sessionKey opts) (request_session st req)).1 JNull.

(** The session handle after that first read. *)
Definition session_handle (st : SessionStorage) (req : request)
    (opts : AuthenticateOptions) : session :=
  (Session.get (sessionKey opts) (request_session st req)).2.

(** The session holds a principal: the stored value passes [!user]. *)
Definition holds_principal (st : SessionStorage) (req : request)
    (opts : AuthenticateOptions) : bool :=
  truthy (stored_user st req opts).

(** The value a form carries in a field: [None] when the field is missing
    or empty. *)
Definition submitted (fd : FormData) (field : string) : option string :=
  match fromEntries fd !! field with
  | Some e => if entry_truthy e then Some (String_of e) else None
  | None => None
  end.

(** The formatter normalizes [raw] to the (non-empty) identifier [p]. *)
Definition normalizes (self : TwilioStrategy) (raw p : string) : Prop :=
  formatPhoneNumber self raw = Ok p /\ p <> "".

(** [successRedirect] is configured with the target [target]. *)
Definition success_target (opts : AuthenticateOptions) (target : string) : Prop :=
  successRedirect opts = Some target /\ target <> "".

Definition is_provider_call (e : event) : bool :=
  match e with
  | CallSendCode _ | CallValidateCode _ _ => true
  | _ => false
  end.

(** The calls to the verification provider, in order. *)
Definition provider_calls (tr : list event) : list event :=
  List.filter is_provider_call tr.

(** The sessions persisted, in order. *)
Definition commits (tr : list event) : list session :=
  omap (fun e => match e with CommitSession s => Some s | _ => None end) tr.

(** The messages handed to the failure transition, in order. *)
Definition failures (tr : list event) : list string :=
  omap (fun e => match e with CallFailure m => Some m | _ => None end) tr.

(** The session the failure transition persists for [msg]. *)
Definition error_session (st : SessionStorage) (req : request)
    (opts : AuthenticateOptions) (msg : string) : session :=
  Session.flash (sessionErrorKey opts) (JStr msg) (request_session st req).

(** How the failure transition for [msg] ends: a redirect to
    [failureRedirect] carrying the persisted session, or a typed error. *)
Definition failure_signalled (st : SessionStorage) (req : request)
    (opts : AuthenticateOptions) (msg : string) (r : result jsval) : Prop :=
  match failureRedirect opts with
  | Some target =>
      r = Throw (ThrowResponse
                   (redirect target (commitSession st (error_session st req opts msg))))
  | None =>
      exists e, r = Throw (ThrowError e) /\
                error_cls e = FailureError /\ message e = msg
  end.

Definition invalid_code_message : string :=
  "Sorry, that code is invalid. Please try again.".

Definition missing_phone_message : string := "Missing phone number.".

Definition missing_redirect_message : string :=
  "Missing required `successRedirect` property.".

(** The preconditions shared by the phone and code steps: no principal in
    the session, a configured [successRedirect], a parsed form. *)
Definition reaches_form (req : request) (st : SessionStorage)
    (opts : AuthenticateOptions) (target : string) (fd : FormData) : Prop :=
  holds_principal st req opts = false /\
  success_target opts target /\
  req_formData req = Ok fd.

(** The calls of one failure transition for [msg] as [authenticate] runs it.
    The typed error thrown inside the [try] block is an [Error], so without a
    [failureRedirect] the [catch] block hands its message to [this.failure]
    once more. *)
Definition failure_calls (st : SessionStorage) (req : request)
    (opts : AuthenticateOptions) (msg : string) : list event :=
  let once := [CallFailure msg; CommitSession (error_session st req opts msg)] in
  match failureRedirect opts with
  | Some _ => once
  | None => (once ++ once)%list
  end.

(** ... and how it settles; [cause] is the cause of the first call. *)
Definition failure_result (st : SessionStorage) (req : request)
    (opts : AuthenticateOptions) (msg : string) (cause : option error)
    : result jsval :=
  match failureRedirect opts with
  | Some target =>
      Throw (ThrowResponse
               (redirect target (commitSession st (error_session st req opts msg))))
  | None =>
      Throw (ThrowError
               (MkError FailureError msg (Some (MkError FailureError msg cause))))
  end.

(** What it means for a run to have taken the failure transition with
    [msg]: every message handed to [this.failure] is [msg], every session
    persisted is the request's session with [msg] flashed under the error
    key, and the run ends as the failure transition ends. *)
Record failure_transition (st : SessionStorage) (req : request)
    (opts : AuthenticateOptions) (msg : string) (m : M jsval) : Prop := {
  ft_called : failures (trace m) <> [];
  ft_message : Forall (eq msg) (failures (trace m));
  ft_persisted : commits (trace m) <> [];
  ft_session : Forall (eq (error_session st req opts msg)) (commits (trace m));
  ft_signal : failure_signalled st req opts msg (outcome m)
}.

(** The form with every field called [name] removed. *)
Definition without_field (name : string) (fd : FormData) : FormData :=
  List.filter (fun kv => negb (String.eqb kv.1 name)) fd.

(** ** A concrete deployment

    The scenario of the specification: the raw phone "555-123-4567"
    normalizes to "+15551234567", the code that was sent is "123456", and
    the user-resolution callback returns the record with id 7. *)

Module Scenario.

Definition phone_package : string -> PhoneResult :=
  fun num =>
    if String.eqb num "555-123-4567"
    then {| isValid := true; phoneNumber := "+15551234567" |}
    else {| isValid := false; phoneNumber := "" |}.

(** The verification service, reachable or not. *)
Definition service (reachable : bool) : string -> string -> Twilio :=
  fun _ _ =>
    {| verifications_create _ _ _ :=
         if reachable then Ok {| verification_status := "pending" |}
         else Throw (ThrowError (new_Error "connect ECONNREFUSED"));
       verificationChecks_create _ _ code :=
         if reachable then
           Ok {| check_status :=
                   if String.eqb code "123456" then "approved" else "pending" |}
         else Throw (ThrowError (new_Error "connect ECONNREFUSED")) |}.

Definition config : TwilioStrategyOptions :=
  {| accountSID := "AC00"; authToken := "secret"; serviceSID := "VA00";
     opt_sendCode := None; opt_validateCode := None;
     opt_formatPhoneNumber := None |}.

Definition find_user : StrategyVerifyCallback :=
  fun phone _ _ => Ok (JObj [("id", JNum 7); ("phone", JStr phone)]).

Definition user_lookup_down : StrategyVerifyCallback :=
  fun _ _ _ => Throw (ThrowError (new_Error "database unavailable")).

Definition strategy : TwilioStrategy :=
  new_TwilioStrategy (service true) phone_package config find_user.

Definition strategy_offline : TwilioStrategy :=
  new_TwilioStrategy (service false) phone_package config find_user.

Definition strategy_no_lookup : TwilioStrategy :=
  new_TwilioStrategy (service true) phone_package config user_lookup_down.

Definition stringify : thrown -> string := fun _ => "{}".

Definition options : AuthenticateOptions :=
  MkOptions "user" "auth:error" (Some "/account") (Some "/login").

Definition options_no_success : AuthenticateOptions :=
  MkOptions "user" "auth:error" None (Some "/login").

Definition options_no_failure : AuthenticateOptions :=
  MkOptions "user" "auth:error" (Some "/account") None.

Definition the_user : jsval :=
  JObj [("id", JNum 7); ("phone", JStr "+15551234567")].

(** The cookie after the code was sent, and the one after login. *)
Definition code_sent : cookie :=
  Serialized (Session.flash "twilio:phone" (JStr "+15551234567") Session.empty).

Definition logged_in : cookie :=
  Serialized (Session.set "user" the_user Session.empty).

Definition phone_form : FormData := [("phone", EntryString "555-123-4567")].

Definition code_form (code : string) : FormData :=
  [("phone", EntryString "555-123-4567"); ("code", EntryString code)].

Definition submit_phone : request := MkRequest None (Ok phone_form).

Definition submit_code (code : string) : request :=
  MkRequest (Some code_sent) (Ok (code_form code)).

Definition returning_visitor : request := MkRequest (Some logged_in) (Ok []).

End Scenario.

(** ** Further vocabulary *)

(** A thrown value the [catch] block rethrows: a [Response] of status 302. *)
Definition is_redirect (t : thrown) : bool :=
  match t with
  | ThrowResponse r => (status r =? 302)%Z
  | _ => false
  end.

(** [error instanceof Error] *)
Definition is_Error (t : thrown) : bool :=
  match t with
  | ThrowError _ => true
  | _ => false
  end.

Definition is_collaborator_call (e : event) : bool :=
  match e with
  | CallFormatPhoneNumber _ | CallSendCode _ | CallValidateCode _ _
  | CallVerify _ _ => true
  | _ => false
  end.

(** The calls to the formatter, the provider and the user-resolution
    callback, in order. *)
Definition collaborator_calls (tr : list event) : list event :=
  List.filter is_collaborator_call tr.

(** The sequences of collaborator calls one transition can make, each with
    what the request and the earlier answers must have been. *)
Inductive call_shape (self : TwilioStrategy) (req : request)
    : list event -> Prop :=
| shape_none : call_shape self req []
| shape_format fd raw :
    req_formData req = Ok fd ->
    submitted fd "phone" = Some raw ->
    call_shape self req [CallFormatPhoneNumber raw]
| shape_send fd raw p :
    req_formData req = Ok fd ->
    submitted fd "phone" = Some raw ->
    formatPhoneNumber self raw = Ok p -> p <> "" ->
    submitted fd "code" = None ->
    call_shape self req [CallFormatPhoneNumber raw; CallSendCode p]
| shape_validate fd raw p code :
    req_formData req = Ok fd ->
    submitted fd "phone" = Some raw ->
    formatPhoneNumber self raw = Ok p -> p <> "" ->
    submitted fd "code" = Some code ->
    call_shape self req [CallFormatPhoneNumber raw; CallValidateCode code p]
| shape_verify fd raw p code v :
    req_formData req = Ok fd ->
    submitted fd "phone" = Some raw ->
    formatPhoneNumber self raw = Ok p -> p <> "" ->
    submitted fd "code" = Some code ->
    validateCode self code p = Ok v ->
    check_status v = "approved" ->
    call_shape self req
      [CallFormatPhoneNumber raw; CallValidateCode code p; CallVerify p fd].

(** How a failure settles that the [catch] block hands to [this.failure]
    with [msg] and [cause]. *)
Definition caught_result (st : SessionStorage) (req : request)
    (opts : AuthenticateOptions) (msg : string) (cause : option error)
    : result jsval :=
  match failureRedirect opts with
  | Some target =>
      Throw (ThrowResponse
               (redirect target (commitSession st (error_session st req opts msg))))
  | None => Throw (ThrowError (MkError FailureError msg cause))
  end.

Definition invalid_phone_message : string := "Invalid phone number.".

Definition unknown_error_message : string := "Unknown Error.".

(** Variations on the concrete deployment. *)
Module Variants.

(** A caller who overrides all three hooks. *)
Definition custom_config : TwilioStrategyOptions :=
  {| accountSID := "AC00"; authToken := "secret"; serviceSID := "VA00";
     opt_sendCode := Some (fun _ => Ok {| verification_status := "pending" |});
     opt_validateCode :=
       Some (fun code _ =>
               Ok {| check_status :=
                       if String.eqb code "42" then "approved" else "pending" |});
     opt_formatPhoneNumber := Some (fun raw => Ok ("+1" ++ raw)) |}.

(** A formatter that normalizes everything to the empty string. *)
Definition blanking_config : TwilioStrategyOptions :=
  {| accountSID := "AC00"; authToken := "secret"; serviceSID := "VA00";
     opt_sendCode := None; opt_validateCode := None;
     opt_formatPhoneNumber := Some (fun _ => Ok "") |}.

Definition strategy_blanking : TwilioStrategy :=
  new_TwilioStrategy (Scenario.service true) Scenario.phone_package
    blanking_config Scenario.find_user.

(** A callback that redirects new users to a sign-up page. *)
Definition signup : response := MkResponse 302 (Some "/signup") None.

Definition strategy_signup : TwilioStrategy :=
  new_TwilioStrategy (Scenario.service true) Scenario.phone_package
    Scenario.config (fun _ _ _ => Throw (ThrowResponse signup)).

(** A callback that throws a string. *)
Definition strategy_throws_string : TwilioStrategy :=
  new_TwilioStrategy (Scenario.service true) Scenario.phone_package
    Scenario.config (fun _ _ _ => Throw (ThrowValue (JStr "no such user"))).

(** A request whose body cannot be read as a form. *)
Definition unreadable : request :=
  MkRequest None (Throw (ThrowError (new_Error "Failed to parse body as FormData."))).

Definition submit_invalid_phone : request :=
  MkRequest None (Ok [("phone", EntryString "12")]).

(** A session with an unrelated key, flashed and set. *)
Definition cart_session : session :=
  Session.flash "twilio:phone" (JStr "+15551234567")
    (Session.flash "notice" (JStr "welcome")
       (Session.set "cart" (JNum 3) Session.empty)).

Definition submit_code_with_cart : request :=
  MkRequest (Some (Serialized cart_session)) (Ok (Scenario.code_form "123456")).

Definition submit_phone_with_cart : request :=
  MkRequest (Some (Serialized cart_session)) (Ok Scenario.phone_form).

End Variants.

(** ** Auxiliary facts *)

Section Facts.

Variable JSON_stringify : thrown -> string.
Variable self : TwilioStrategy.
Variable req : request.
Variable st : SessionStorage.
Variable opts : AuthenticateOptions.

Abbreviation run := (authenticate JSON_stringify self req st opts).

Lemma authenticate_authenticated :
  holds_principal st req opts = true ->
  run = ([CallSuccess (stored_user st req opts)], Ok (stored_user st req opts)).
Proof.
  unfold holds_principal, stored_user, authenticate, request_session.
  destruct (Session.get _ _) as [v s]; simpl.
  intros ->; reflexivity.
Qed.

Lemma authenticate_unauthenticated :
  holds_principal st req opts = false ->
  run = try_catch (try_block self req st opts (session_handle st req opts))
                  (catch_block JSON_stringify req st opts).
Proof.
  unfold holds_principal, stored_user, session_handle, authenticate,
    request_session.
  destruct (Session.get _ _) as [v s]; simpl.
  intros ->; reflexivity.
Qed.

(** The formatter is called on a submitted phone and on nothing else. *)
Lemma phone_of_form_submitted fd raw :
  submitted fd "phone" = Some raw ->
  phone_of_form self (fromEntries fd) =
    call (CallFormatPhoneNumber raw)
         (match formatPhoneNumber self raw with
          | Ok p => Ok (Some p)
          | Throw t => Throw t
          end).
Proof.
  unfold submitted, phone_of_form.
  destruct (fromEntries fd !! "phone") as [e|]; [|discriminate].
  destruct (entry_truthy e); [|discriminate].
  intros [= ->]. unfold bind, call, ret.
  destruct (formatPhoneNumber self _); reflexivity.
Qed.

Lemma phone_of_form_missing fd :
  submitted fd "phone" = None ->
  exists o, phone_of_form self (fromEntries fd) = ret o /\ truthy_str o = false.
Proof.
  unfold submitted, phone_of_form.
  destruct (fromEntries fd !! "phone") as [e|]; [|by exists None].
  destruct (entry_truthy e) eqn:E; [discriminate|].
  intros _. exists (Some (String_of e)). split; [reflexivity|].
  destruct e as [s|f]; simpl in *; [|discriminate].
  by rewrite E.
Qed.

Lemma code_of_form_submitted fd c :
  submitted fd "code" = Some c ->
  code_of_form (fromEntries fd) = Some c /\ truthy_str (Some c) = true.
Proof.
  unfold submitted, code_of_form.
  destruct (fromEntries fd !! "code") as [e|]; [|discriminate].
  destruct (entry_truthy e) eqn:E; [|discriminate].
  intros [= <-]. split; [reflexivity|].
  destruct e as [s|f]; simpl in *; [assumption|reflexivity].
Qed.

Lemma code_of_form_missing fd :
  submitted fd "code" = None ->
  truthy_str (code_of_form (fromEntries fd)) = false.
Proof.
  unfold submitted, code_of_form.
  destruct (fromEntries fd !! "code") as [e|]; [|reflexivity].
  destruct (entry_truthy e) eqn:E; [discriminate|].
  intros _. destruct e as [s|f]; simpl in *; [|discriminate].
  by rewrite E.
Qed.

End Facts.

Lemma truthy_str_Some s : s <> "" -> truthy_str (Some s) = true.
Proof. intros Hs. simpl. by apply negb_true_iff, String.eqb_neq. Qed.

Ltac run_step :=
  cbn [bind call ret throw commit app negb default from_option id
       call_failure return_never failure success spec_base
       spec_failure spec_success message].

(** ** The [catch] block *)

Section Transitions.

Variable JSON_stringify : thrown -> string.
Variable self : TwilioStrategy.
Variable req : request.
Variable st : SessionStorage.
Variable opts : AuthenticateOptions.

Abbreviation catch := (catch_block JSON_stringify req st opts).

(** A redirect thrown in the [try] block passes the [catch] block unchanged. *)
Lemma try_catch_redirect tr target c :
  try_catch (tr, Throw (ThrowResponse (redirect target c))) catch =
  (tr, Throw (ThrowResponse (redirect target c))).
Proof. unfold try_catch, catch_block. simpl. by rewrite app_nil_r. Qed.

End Transitions.

(** ** The failure transition *)

Lemma provider_calls_app tr1 tr2 :
  provider_calls (tr1 ++ tr2) = (provider_calls tr1 ++ provider_calls tr2)%list.
Proof. apply List.filter_app. Qed.

Lemma provider_calls_failure st req opts msg :
  provider_calls (failure_calls st req opts msg) = [].
Proof. unfold failure_calls. by destruct (failureRedirect opts). Qed.

Lemma failure_transition_calls st req opts msg cause pre :
  failures pre = [] -> commits pre = [] ->
  failure_transition st req opts msg
    ((pre ++ failure_calls st req opts msg)%list,
     failure_result st req opts msg cause).
Proof.
  intros Hf Hc.
  split; unfold trace, outcome, failures, commits in *; cbn [fst snd];
    rewrite ?omap_app, ?Hf, ?Hc; unfold failure_calls, failure_result,
    failure_signalled; destruct (failureRedirect opts); simpl;
    try discriminate; repeat constructor.
  eexists; repeat split.
Qed.

Lemma failure_transition_error st req opts (e : error) pre :
  failures pre = [] -> commits pre = [] ->
  failure_transition st req opts (message e)
    ((pre ++ [CallFailure (message e);
              CommitSession (error_session st req opts (message e))])%list,
     match failureRedirect opts with
     | Some target =>
         Throw (ThrowResponse
                  (redirect target
                     (commitSession st (error_session st req opts (message e)))))
     | None => Throw (ThrowError (MkError FailureError (message e) (Some e)))
     end).
Proof.
  intros Hf Hc.
  split; unfold trace, outcome, failures, commits in *; cbn [fst snd];
    rewrite ?omap_app, ?Hf, ?Hc; unfold failure_signalled;
    destruct (failureRedirect opts); simpl;
    try discriminate; repeat constructor.
  eexists; repeat split.
Qed.

(** The failure transition touches the flashed error key and nothing else. *)
Lemma error_session_frame st req opts msg :
  let s := error_session st req opts msg in
  flashed s !! sessionErrorKey opts = Some (JStr msg) /\
  data s = data (request_session st req) /\
  (forall k, k <> sessionErrorKey opts ->
             flashed s !! k = flashed (request_session st req) !! k).
Proof.
  unfold error_session, Session.flash; simpl. split; [apply lookup_insert_eq|].
  split; [reflexivity|]. intros k Hk. by rewrite lookup_insert_ne.
Qed.

(** ** The transition, case by case *)

Section Cases.

Variable JSON_stringify : thrown -> string.
Variable self : TwilioStrategy.
Variable req : request.
Variable st : SessionStorage.
Variable opts : AuthenticateOptions.

Abbreviation run := (authenticate JSON_stringify self req st opts).

Ltac enter_try Hreach :=
  let Hu := fresh "Hu" in
  let Ht := fresh "Ht" in
  let Hne := fresh "Hne" in
  let Hfd := fresh "Hfd" in
  destruct Hreach as (Hu & [Ht Hne] & Hfd);
  rewrite (authenticate_unauthenticated _ _ _ _ _ Hu);
  unfold try_block; rewrite Ht, (truthy_str_Some _ Hne), Hfd; run_step.

Ltac settle :=
  unfold failure_calls, failure_result, error_session, request_session;
  unfold try_catch, catch_block;
  let Hfr := fresh "Hfr" in
  destruct (failureRedirect opts) eqn:Hfr; run_step;
  cbn [status redirect Z.eqb Pos.eqb]; run_step; rewrite ?Hfr; run_step;
  rewrite ?app_nil_r; reflexivity.

Lemma run_missing_redirect :
  holds_principal st req opts = false ->
  truthy_str (successRedirect opts) = false ->
  run = ([CallFailure missing_redirect_message;
          CommitSession (error_session st req opts missing_redirect_message)],
         match failureRedirect opts with
         | Some target =>
             Throw (ThrowResponse
                      (redirect target
                         (commitSession st
                            (error_session st req opts missing_redirect_message))))
         | None =>
             Throw (ThrowError
                      (MkError FailureError missing_redirect_message
                         (Some (new_Error missing_redirect_message))))
         end).
Proof.
  intros Hu Ht. rewrite (authenticate_unauthenticated _ _ _ _ _ Hu).
  unfold try_block. rewrite Ht. run_step.
  settle.
Qed.

Lemma run_missing_phone target fd :
  reaches_form req st opts target fd ->
  submitted fd "phone" = None ->
  run = (failure_calls st req opts missing_phone_message,
         failure_result st req opts missing_phone_message None).
Proof.
  intros Hreach Hph. enter_try Hreach.
  destruct (phone_of_form_missing self fd Hph) as (o & -> & Ho).
  run_step. rewrite Ho. cbn [negb].
  settle.
Qed.

Lemma run_phone_only target fd raw p vi :
  reaches_form req st opts target fd ->
  submitted fd "phone" = Some raw ->
  submitted fd "code" = None ->
  normalizes self raw p ->
  sendCode self p = Ok vi ->
  let s' := Session.unset (sessionErrorKey opts)
              (Session.flash (sessionPhoneKey self) (JStr p)
                 (session_handle st req opts)) in
  run = ([CallFormatPhoneNumber raw; CallSendCode p; CommitSession s'],
         Throw (ThrowResponse (redirect target (commitSession st s')))).
Proof.
  intros Hreach Hph Hco [Hfmt Hp] Hsend s'. enter_try Hreach.
  rewrite (phone_of_form_submitted _ _ _ Hph), Hfmt. run_step.
  rewrite (truthy_str_Some _ Hp), (code_of_form_missing _ Hco).
  run_step. rewrite Hsend. run_step.
  apply try_catch_redirect.
Qed.

Lemma run_approved target fd raw code p v u :
  reaches_form req st opts target fd ->
  submitted fd "phone" = Some raw ->
  submitted fd "code" = Some code ->
  normalizes self raw p ->
  validateCode self code p = Ok v ->
  check_status v = "approved" ->
  verify self p fd req = Ok u ->
  let s' := Session.unset (sessionErrorKey opts)
              (Session.unset (sessionPhoneKey self)
                 (Session.set (sessionKey opts) u
                    (session_handle st req opts))) in
  run = ([CallFormatPhoneNumber raw; CallValidateCode code p;
          CallVerify p fd; CommitSession s'],
         Throw (ThrowResponse (redirect target (commitSession st s')))).
Proof.
  intros Hreach Hph Hco [Hfmt Hp] Hval Hst Hver s'. enter_try Hreach.
  rewrite (phone_of_form_submitted _ _ _ Hph), Hfmt. run_step.
  destruct (code_of_form_submitted _ _ Hco) as [-> Hc].
  rewrite (truthy_str_Some _ Hp), Hc. run_step.
  rewrite Hval. run_step. rewrite Hst. cbn [String.eqb Ascii.eqb Bool.eqb negb].
  rewrite Hver. run_step.
  apply try_catch_redirect.
Qed.

Lemma run_rejected target fd raw code p v :
  reaches_form req st opts target fd ->
  submitted fd "phone" = Some raw ->
  submitted fd "code" = Some code ->
  normalizes self raw p ->
  validateCode self code p = Ok v ->
  check_status v <> "approved" ->
  run = (([CallFormatPhoneNumber raw; CallValidateCode code p]
            ++ failure_calls st req opts invalid_code_message)%list,
         failure_result st req opts invalid_code_message None).
Proof.
  intros Hreach Hph Hco [Hfmt Hp] Hval Hst. enter_try Hreach.
  rewrite (phone_of_form_submitted _ _ _ Hph), Hfmt. run_step.
  destruct (code_of_form_submitted _ _ Hco) as [-> Hc].
  rewrite (truthy_str_Some _ Hp), Hc. run_step.
  rewrite Hval. run_step.
  apply String.eqb_neq in Hst. rewrite Hst. cbn [negb].
  settle.
Qed.

Lemma run_check_failed target fd raw code p e :
  reaches_form req st opts target fd ->
  submitted fd "phone" = Some raw ->
  submitted fd "code" = Some code ->
  normalizes self raw p ->
  validateCode self code p = Throw (ThrowError e) ->
  run = ([CallFormatPhoneNumber raw; CallValidateCode code p;
          CallFailure (message e);
          CommitSession (error_session st req opts (message e))],
         match failureRedirect opts with
         | Some target =>
             Throw (ThrowResponse
                      (redirect target
                         (commitSession st (error_session st req opts (message e)))))
         | None => Throw (ThrowError (MkError FailureError (message e) (Some e)))
         end).
Proof.
  intros Hreach Hph Hco [Hfmt Hp] Hval. enter_try Hreach.
  rewrite (phone_of_form_submitted _ _ _ Hph), Hfmt. run_step.
  destruct (code_of_form_submitted _ _ Hco) as [-> Hc].
  rewrite (truthy_str_Some _ Hp), Hc. run_step.
  rewrite Hval. run_step.
  settle.
Qed.

Lemma run_verify_failed target fd raw code p v e :
  reaches_form req st opts target fd ->
  submitted fd "phone" = Some raw ->
  submitted fd "code" = Some code ->
  normalizes self raw p ->
  validateCode self code p = Ok v ->
  check_status v = "approved" ->
  verify self p fd req = Throw (ThrowError e) ->
  run = ([CallFormatPhoneNumber raw; CallValidateCode code p; CallVerify p fd;
          CallFailure (message e);
          CommitSession (error_session st req opts (message e))],
         match failureRedirect opts with
         | Some target =>
             Throw (ThrowResponse
                      (redirect target
                         (commitSession st (error_session st req opts (message e)))))
         | None => Throw (ThrowError (MkError FailureError (message e) (Some e)))
         end).
Proof.
  intros Hreach Hph Hco [Hfmt Hp] Hval Hst Hver. enter_try Hreach.
  rewrite (phone_of_form_submitted _ _ _ Hph), Hfmt. run_step.
  destruct (code_of_form_submitted _ _ Hco) as [-> Hc].
  rewrite (truthy_str_Some _ Hp), Hc. run_step.
  rewrite Hval. run_step. rewrite Hst. cbn [String.eqb Ascii.eqb Bool.eqb negb].
  rewrite Hver. run_step.
  settle.
Qed.

End Cases.

(** ** Counting provider calls *)

Section ProviderCalls.

Variable JSON_stringify : thrown -> string.
Variable self : TwilioStrategy.
Variable req : request.
Variable st : SessionStorage.
Variable opts : AuthenticateOptions.

Lemma call_failure_quiet msg cause :
  provider_calls (trace (call_failure req st opts msg cause)) = [].
Proof. run_step. by destruct (failureRedirect opts). Qed.

Lemma catch_block_quiet t :
  provider_calls (trace (catch_block JSON_stringify req st opts t)) = [].
Proof.
  unfold catch_block.
  destruct t as [r|e|x]; [destruct (status r =? 302)%Z|..];
    first [reflexivity | apply call_failure_quiet].
Qed.

(** The [catch] block adds no provider call to what the [try] block made. *)
Lemma try_catch_quiet (m : M jsval) :
  provider_calls (trace (try_catch m (catch_block JSON_stringify req st opts))) =
  provider_calls (trace m).
Proof.
  destruct m as [tr [a|t]]; [reflexivity|]. unfold try_catch.
  pose proof (catch_block_quiet t) as Hq.
  destruct (catch_block _ _ _ _ t) as [tr' r]. unfold trace in *. cbn [fst] in *.
  by rewrite provider_calls_app, Hq, app_nil_r.
Qed.

Lemma phone_of_form_quiet form :
  provider_calls (trace (phone_of_form self form)) = [].
Proof.
  unfold phone_of_form. destruct (form !! "phone") as [e|]; [|reflexivity].
  destruct (entry_truthy e); [|reflexivity].
  run_step. by destruct (formatPhoneNumber self _).
Qed.

(** The provider calls of the [try] block, path by path. *)
Lemma try_block_calls session :
  let calls := provider_calls (trace (try_block self req st opts session)) in
  calls = [] \/
  (exists p, calls = [CallSendCode p]) \/
  (exists c p, calls = [CallValidateCode c p]).
Proof.
  cbn zeta. unfold try_block.
  destruct (truthy_str (successRedirect opts)); cbn [negb]; [|left; reflexivity].
  destruct (req_formData req) as [fd|t]; [|left; reflexivity].
  cbn [bind app].
  pose proof (phone_of_form_quiet (fromEntries fd)) as Hq.
  destruct (phone_of_form self (fromEntries fd)) as [tr [ph|t]];
    unfold trace in Hq; cbn [fst] in Hq; cbn [bind app]; [|left; exact Hq].
  destruct (truthy_str ph); cbn [negb].
  2: { left. pose proof (call_failure_quiet "Missing phone number." None) as Hf.
       destruct (call_failure _ _ _ _ _) as [tr' r'].
       unfold trace in *; cbn [fst] in *.
       by rewrite provider_calls_app, Hq, Hf. }
  destruct (truthy_str (code_of_form (fromEntries fd))).
  - right; right. exists (default "" (code_of_form (fromEntries fd))), (default "" ph).
    unfold call; cbn [bind].
    destruct (validateCode self _ _) as [v|t];
      [|unfold trace; cbn [fst]; by rewrite provider_calls_app, Hq].
    destruct (negb _).
    + pose proof (call_failure_quiet invalid_code_message None) as Hf.
      unfold invalid_code_message in Hf.
      destruct (call_failure _ _ _ _ _) as [tr' r'].
      unfold trace in *; cbn [fst] in *.
      rewrite provider_calls_app, Hq. simpl. by rewrite Hf.
    + destruct (verify self _ _ _) as [u|t]; run_step;
        unfold trace; cbn [fst]; by rewrite provider_calls_app, Hq.
  - right; left. exists (default "" ph).
    unfold call; cbn [bind].
    destruct (sendCode self _) as [vi|t]; run_step;
      unfold trace; cbn [fst]; by rewrite provider_calls_app, Hq.
Qed.

End ProviderCalls.

(** ** Forms without a field *)

Lemma fold_without_field name fd (m : gmap string form_entry) :
  fold_left (fun m kv => <[kv.1 := kv.2]> m) (without_field name fd)
            (delete name m) =
  delete name (fold_left (fun m kv => <[kv.1 := kv.2]> m) fd m).
Proof.
  revert m. induction fd as [|[k e] fd IH]; intros m; [reflexivity|].
  cbn [without_field List.filter fold_left fst snd].
  destruct (String.eqb k name) eqn:Hk; cbn [negb].
  - apply String.eqb_eq in Hk as ->.
    rewrite <- (IH (<[name := e]> m)). by rewrite delete_insert_eq.
  - apply String.eqb_neq in Hk. cbn [fold_left fst snd].
    rewrite <- (IH (<[k := e]> m)). fold (without_field name fd).
    by rewrite delete_insert_ne.
Qed.

Lemma fromEntries_without_field name fd :
  fromEntries (without_field name fd) = delete name (fromEntries fd).
Proof.
  unfold fromEntries. rewrite <- fold_without_field. by rewrite delete_empty.
Qed.

Lemma submitted_without_field_eq name fd :
  submitted (without_field name fd) name = None.
Proof.
  unfold submitted. by rewrite fromEntries_without_field, lookup_delete_eq.
Qed.

Lemma submitted_without_field_ne name field fd :
  name <> field ->
  submitted (without_field name fd) field = submitted fd field.
Proof.
  intros Hne. unfold submitted.
  by rewrite fromEntries_without_field, lookup_delete_ne.
Qed.

(** ** The claims *)

(** C1. For every request carrying a phone and a code, when the session
    holds no principal and [validateCode] returns [approved], the transition
    stores the value returned by the user-resolution callback under the
    session key, unsets the pending-phone key, unsets the error key, and
    signals a redirect to [successRedirect] with the committed session
    cookie. *)
Theorem C1_approved_code_authenticates
    JSON_stringify self req st opts target fd raw code p v u :
  reaches_form req st opts target fd ->
  submitted fd "phone" = Some raw ->
  submitted fd "code" = Some code ->
  normalizes self raw p ->
  validateCode self code p = Ok v ->
  check_status v = "approved" ->
  verify self p fd req = Ok u ->
  sessionKey opts <> sessionPhoneKey self ->
  sessionKey opts <> sessionErrorKey opts ->
  let m := authenticate JSON_stringify self req st opts in
  let s' := Session.unset (sessionErrorKey opts)
              (Session.unset (sessionPhoneKey self)
                 (Session.set (sessionKey opts) u
                    (session_handle st req opts))) in
  trace m = [CallFormatPhoneNumber raw; CallValidateCode code p;
             CallVerify p fd; CommitSession s'] /\
  outcome m = Throw (ThrowResponse (redirect target (commitSession st s'))) /\
  data s' !! sessionKey opts = Some u /\
  Session.peek (sessionPhoneKey self) s' = JUndefined /\
  Session.peek (sessionErrorKey opts) s' = JUndefined.
Proof.
  intros Hreach Hph Hco Hnorm Hval Hst Hver Hk1 Hk2 m s'. subst m.
  rewrite (run_approved _ _ _ _ _ _ _ _ _ _ _ _
             Hreach Hph Hco Hnorm Hval Hst Hver).
  fold s'. split; [reflexivity|]. split; [reflexivity|].
  subst s'. unfold Session.peek, Session.get. simpl. split.
  - by rewrite !lookup_delete_ne, lookup_insert_eq.
  - split.
    + destruct (decide (sessionErrorKey opts = sessionPhoneKey self)) as [->|Hne].
      * by rewrite !lookup_delete_eq.
      * by rewrite !(lookup_delete_ne _ _ _ Hne), !lookup_delete_eq.
    + by rewrite !lookup_delete_eq.
Qed.

Lemma C1_witness :
  let m := authenticate Scenario.stringify Scenario.strategy
             (Scenario.submit_code "123456") cookieSessionStorage
             Scenario.options in
  let s' := Session.unset "auth:error"
              (Session.unset "twilio:phone"
                 (Session.set "user" Scenario.the_user
                    (session_handle cookieSessionStorage
                       (Scenario.submit_code "123456") Scenario.options))) in
  trace m = [CallFormatPhoneNumber "555-123-4567";
             CallValidateCode "123456" "+15551234567";
             CallVerify "+15551234567" (Scenario.code_form "123456");
             CommitSession s'] /\
  outcome m = Throw (ThrowResponse (redirect "/account" (Serialized s'))) /\
  data s' !! "user" = Some Scenario.the_user /\
  Session.peek "twilio:phone" s' = JUndefined /\
  Session.peek "auth:error" s' = JUndefined.
Proof.
  apply (C1_approved_code_authenticates Scenario.stringify Scenario.strategy
           (Scenario.submit_code "123456") cookieSessionStorage
           Scenario.options "/account" (Scenario.code_form "123456")
           "555-123-4567" "123456" "+15551234567"
           {| check_status := "approved" |} Scenario.the_user).
  - repeat split; discriminate.
  - reflexivity.
  - reflexivity.
  - split; [reflexivity | discriminate].
  - reflexivity.
  - reflexivity.
  - reflexivity.
  - discriminate.
  - discriminate.
Defined.

(** C2. For every request carrying a phone and a code, when the session
    holds no principal and [validateCode] returns a status other than
    [approved], the transition flashes the invalid-code message under the
    error key, leaves the flashed pending phone as it was, and signals a
    redirect to [failureRedirect] when one is configured, otherwise
    propagates a typed error; no other session key is modified. *)
Theorem C2_rejected_code_keeps_pending_phone
    JSON_stringify self req st opts target fd raw code p v :
  reaches_form req st opts target fd ->
  submitted fd "phone" = Some raw ->
  submitted fd "code" = Some code ->
  normalizes self raw p ->
  validateCode self code p = Ok v ->
  check_status v <> "approved" ->
  sessionErrorKey opts <> sessionPhoneKey self ->
  let m := authenticate JSON_stringify self req st opts in
  let s := error_session st req opts invalid_code_message in
  provider_calls (trace m) = [CallValidateCode code p] /\
  failure_transition st req opts invalid_code_message m /\
  flashed s !! sessionErrorKey opts = Some (JStr invalid_code_message) /\
  flashed s !! sessionPhoneKey self =
    flashed (request_session st req) !! sessionPhoneKey self /\
  data s = data (request_session st req) /\
  (forall k, k <> sessionErrorKey opts ->
             flashed s !! k = flashed (request_session st req) !! k).
Proof.
  intros Hreach Hph Hco Hnorm Hval Hst Hk m s. subst m.
  rewrite (run_rejected _ _ _ _ _ _ _ _ _ _ _
             Hreach Hph Hco Hnorm Hval Hst).
  destruct (error_session_frame st req opts invalid_code_message)
    as (Hflash & Hdata & Hframe).
  split.
  { unfold trace; cbn [fst].
    by rewrite provider_calls_app, provider_calls_failure. }
  split; [by apply failure_transition_calls|].
  split; [exact Hflash|]. split; [|split; [exact Hdata | exact Hframe]].
  apply Hframe. congruence.
Qed.

Lemma C2_witness :
  let m := authenticate Scenario.stringify Scenario.strategy
             (Scenario.submit_code "000000") cookieSessionStorage
             Scenario.options in
  let s := error_session cookieSessionStorage (Scenario.submit_code "000000")
             Scenario.options invalid_code_message in
  provider_calls (trace m) = [CallValidateCode "000000" "+15551234567"] /\
  failure_transition cookieSessionStorage (Scenario.submit_code "000000")
    Scenario.options invalid_code_message m /\
  flashed s !! "auth:error" = Some (JStr invalid_code_message) /\
  flashed s !! "twilio:phone" =
    flashed (request_session cookieSessionStorage (Scenario.submit_code "000000"))
      !! "twilio:phone" /\
  data s = data (request_session cookieSessionStorage
                   (Scenario.submit_code "000000")) /\
  (forall k, k <> "auth:error" ->
     flashed s !! k =
     flashed (request_session cookieSessionStorage
                (Scenario.submit_code "000000")) !! k).
Proof.
  apply (C2_rejected_code_keeps_pending_phone Scenario.stringify
           Scenario.strategy (Scenario.submit_code "000000")
           cookieSessionStorage Scenario.options "/account"
           (Scenario.code_form "000000") "555-123-4567" "000000"
           "+15551234567" {| check_status := "pending" |}).
  - repeat split; discriminate.
  - reflexivity.
  - reflexivity.
  - split; [reflexivity | discriminate].
  - reflexivity.
  - discriminate.
  - discriminate.
Defined.

(** C3. For every request carrying a phone and no code, when the session
    holds no principal and [sendCode] succeeds, the transition flashes the
    normalized phone under the pending-phone key, unsets the error key, and
    signals a redirect to [successRedirect] with the committed session
    cookie. *)
Theorem C3_phone_only_requests_code
    JSON_stringify self req st opts target fd raw p vi :
  reaches_form req st opts target fd ->
  submitted fd "phone" = Some raw ->
  submitted fd "code" = None ->
  normalizes self raw p ->
  sendCode self p = Ok vi ->
  sessionErrorKey opts <> sessionPhoneKey self ->
  let m := authenticate JSON_stringify self req st opts in
  let s' := Session.unset (sessionErrorKey opts)
              (Session.flash (sessionPhoneKey self) (JStr p)
                 (session_handle st req opts)) in
  trace m = [CallFormatPhoneNumber raw; CallSendCode p; CommitSession s'] /\
  outcome m = Throw (ThrowResponse (redirect target (commitSession st s'))) /\
  flashed s' !! sessionPhoneKey self = Some (JStr p) /\
  data s' !! sessionErrorKey opts = None /\
  flashed s' !! sessionErrorKey opts = None.
Proof.
  intros Hreach Hph Hco Hnorm Hsend Hk m s'. subst m.
  rewrite (run_phone_only _ _ _ _ _ _ _ _ _ _ Hreach Hph Hco Hnorm Hsend).
  fold s'. split; [reflexivity|]. split; [reflexivity|].
  subst s'. simpl.
  rewrite lookup_delete_ne, lookup_insert_eq by done.
  by rewrite !lookup_delete_eq.
Qed.

Lemma C3_witness :
  let m := authenticate Scenario.stringify Scenario.strategy
             Scenario.submit_phone cookieSessionStorage Scenario.options in
  let s' := Session.unset "auth:error"
              (Session.flash "twilio:phone" (JStr "+15551234567")
                 (session_handle cookieSessionStorage Scenario.submit_phone
                    Scenario.options)) in
  trace m = [CallFormatPhoneNumber "555-123-4567"; CallSendCode "+15551234567";
             CommitSession s'] /\
  outcome m = Throw (ThrowResponse (redirect "/account" (Serialized s'))) /\
  flashed s' !! "twilio:phone" = Some (JStr "+15551234567") /\
  data s' !! "auth:error" = None /\
  flashed s' !! "auth:error" = None.
Proof.
  apply (C3_phone_only_requests_code Scenario.stringify Scenario.strategy
           Scenario.submit_phone cookieSessionStorage Scenario.options
           "/account" Scenario.phone_form "555-123-4567" "+15551234567"
           {| verification_status := "pending" |}).
  - repeat split; discriminate.
  - reflexivity.
  - reflexivity.
  - split; [reflexivity | discriminate].
  - reflexivity.
  - discriminate.
Defined.

(** C4. For every request whose session already holds a principal under the
    session key, the transition calls neither [sendCode] nor [validateCode],
    does not look at [successRedirect], and returns the stored principal
    unchanged.  Whatever the inherited helpers do, [authenticate] itself
    only hands the stored principal to [this.success]. *)
Theorem C4_authenticated_session_bypasses JSON_stringify self req st opts :
  holds_principal st req opts = true ->
  let m := authenticate JSON_stringify self req st opts in
  let stored := (Session.get (sessionKey opts) (request_session st req)).1 in
  provider_calls (trace m) = [] /\
  trace m = [CallSuccess stored] /\
  outcome m = Ok stored /\
  (forall base : StrategyBase,
     @authenticate base JSON_stringify self req st opts =
     (let* _ := call (CallSuccess stored) (Ok tt) in
      @success base stored req st opts)).
Proof.
  intros Hu m stored. subst m.
  rewrite (authenticate_authenticated _ _ _ _ _ Hu).
  assert (stored_user st req opts = stored) as Hs.
  { unfold holds_principal, stored_user in *. fold stored in Hu |- *.
    by destruct stored. }
  rewrite Hs. repeat split.
  intros base. unfold holds_principal in Hu. rewrite Hs in Hu.
  unfold authenticate. subst stored. unfold request_session in *.
  destruct (Session.get _ _) as [v s]. cbn [fst] in *.
  assert (nullish_coalesce v JNull = v) as -> by (by destruct v).
  by rewrite Hu.
Qed.

Lemma C4_witness :
  let m := authenticate Scenario.stringify Scenario.strategy_offline
             Scenario.returning_visitor cookieSessionStorage
             Scenario.options_no_success in
  provider_calls (trace m) = [] /\
  trace m = [CallSuccess Scenario.the_user] /\
  outcome m = Ok Scenario.the_user.
Proof.
  refine (let H := C4_authenticated_session_bypasses Scenario.stringify
                     Scenario.strategy_offline Scenario.returning_visitor
                     cookieSessionStorage Scenario.options_no_success _ in
          conj (proj1 H) (conj (proj1 (proj2 H)) (proj1 (proj2 (proj2 H))))).
  reflexivity.
Defined.

(** C5, as the code has it.  For every request whose session holds no
    principal, if [successRedirect] is not configured the transition makes
    no provider call and fails with the missing-[successRedirect] message;
    that failure takes the failure transition like any other: the message
    is flashed under the error key, and the run ends in a redirect to
    [failureRedirect] when one is configured, otherwise in a typed error
    whose cause is the original error. *)
Theorem C5_missing_success_redirect JSON_stringify self req st opts :
  holds_principal st req opts = false ->
  truthy_str (successRedirect opts) = false ->
  let m := authenticate JSON_stringify self req st opts in
  let s := error_session st req opts missing_redirect_message in
  provider_calls (trace m) = [] /\
  trace m = [CallFailure missing_redirect_message; CommitSession s] /\
  failure_transition st req opts missing_redirect_message m /\
  flashed s !! sessionErrorKey opts = Some (JStr missing_redirect_message) /\
  (failureRedirect opts = None ->
   outcome m = Throw (ThrowError
                        (MkError FailureError missing_redirect_message
                           (Some (new_Error missing_redirect_message))))).
Proof.
  intros Hu Ht m s. subst m.
  rewrite (run_missing_redirect _ _ _ _ _ Hu Ht). fold s.
  split; [reflexivity|]. split; [reflexivity|]. split.
  { exact (failure_transition_error st req opts
             (new_Error missing_redirect_message) [] eq_refl eq_refl). }
  split; [apply error_session_frame|].
  by intros ->.
Qed.

Lemma C5_witness :
  let m := authenticate Scenario.stringify Scenario.strategy
             Scenario.submit_phone cookieSessionStorage
             Scenario.options_no_success in
  let s := error_session cookieSessionStorage Scenario.submit_phone
             Scenario.options_no_success missing_redirect_message in
  provider_calls (trace m) = [] /\
  trace m = [CallFailure missing_redirect_message; CommitSession s] /\
  failure_transition cookieSessionStorage Scenario.submit_phone
    Scenario.options_no_success missing_redirect_message m /\
  flashed s !! "auth:error" = Some (JStr missing_redirect_message) /\
  (failureRedirect Scenario.options_no_success = None ->
   outcome m = Throw (ThrowError
                        (MkError FailureError missing_redirect_message
                           (Some (new_Error missing_redirect_message))))).
Proof.
  apply (C5_missing_success_redirect Scenario.stringify Scenario.strategy
           Scenario.submit_phone cookieSessionStorage
           Scenario.options_no_success); reflexivity.
Defined.

(** C5 as stated fails: with a [failureRedirect] configured, the missing
    [successRedirect] is not propagated as an error; it is flashed into the
    session like a user error and answered by a redirect. *)
Lemma C5_counterexample :
  let m := authenticate Scenario.stringify Scenario.strategy
             Scenario.submit_phone cookieSessionStorage
             Scenario.options_no_success in
  holds_principal cookieSessionStorage Scenario.submit_phone
    Scenario.options_no_success = false /\
  successRedirect Scenario.options_no_success = None /\
  outcome m =
    Throw (ThrowResponse
             (redirect "/login"
                (Serialized
                   (Session.flash "auth:error" (JStr missing_redirect_message)
                      Session.empty)))) /\
  ~ (exists e, outcome m = Throw (ThrowError e)).
Proof.
  cbn zeta. repeat split. intros [e He]. discriminate He.
Qed.

(** C6, as the code has it.  For every phone-and-code submission, an error
    thrown by [validateCode] takes the failure transition with that error's
    message and leaves the pending phone in place.  The default
    [validateCode] answers every failure of the verification service with an
    error whose message is the invalid-code message, the same message a
    rejected code produces. *)
Theorem C6_failed_check_takes_failure_transition
    JSON_stringify self req st opts target fd raw code p :
  reaches_form req st opts target fd ->
  submitted fd "phone" = Some raw ->
  submitted fd "code" = Some code ->
  normalizes self raw p ->
  sessionErrorKey opts <> sessionPhoneKey self ->
  let m := authenticate JSON_stringify self req st opts in
  (forall e,
     validateCode self code p = Throw (ThrowError e) ->
     provider_calls (trace m) = [CallValidateCode code p] /\
     failure_transition st req opts (message e) m /\
     flashed (error_session st req opts (message e)) !! sessionPhoneKey self =
       flashed (request_session st req) !! sessionPhoneKey self) /\
  (forall t,
     validateCode self = defaultValidateCode (client self) (options_ self) ->
     verificationChecks_create (client self) (serviceSID (options_ self)) p code
       = Throw t ->
     validateCode self code p = Throw (ThrowError (new_Error invalid_code_message)) /\
     failure_transition st req opts invalid_code_message m).
Proof.
  intros Hreach Hph Hco Hnorm Hk m.
  assert (forall e,
     validateCode self code p = Throw (ThrowError e) ->
     provider_calls (trace m) = [CallValidateCode code p] /\
     failure_transition st req opts (message e) m /\
     flashed (error_session st req opts (message e)) !! sessionPhoneKey self =
       flashed (request_session st req) !! sessionPhoneKey self) as Hgen.
  { intros e Hval. subst m.
    rewrite (run_check_failed _ _ _ _ _ _ _ _ _ _ _
               Hreach Hph Hco Hnorm Hval).
    split; [reflexivity|]. split.
    - exact (failure_transition_error st req opts e
               [CallFormatPhoneNumber raw; CallValidateCode code p]
               eq_refl eq_refl).
    - apply error_session_frame. congruence. }
  split; [exact Hgen|].
  intros t Hdef Hsvc.
  assert (validateCode self code p =
          Throw (ThrowError (new_Error invalid_code_message))) as Hval.
  { rewrite Hdef. unfold defaultValidateCode. by rewrite Hsvc. }
  split; [exact Hval|]. exact (proj1 (proj2 (Hgen _ Hval))).
Qed.

Lemma C6_witness :
  let m := authenticate Scenario.stringify Scenario.strategy_offline
             (Scenario.submit_code "123456") cookieSessionStorage
             Scenario.options in
  failure_transition cookieSessionStorage (Scenario.submit_code "123456")
    Scenario.options invalid_code_message m.
Proof.
  refine (proj2 (proj2 (C6_failed_check_takes_failure_transition
           Scenario.stringify Scenario.strategy_offline
           (Scenario.submit_code "123456") cookieSessionStorage
           Scenario.options "/account" (Scenario.code_form "123456")
           "555-123-4567" "123456" "+15551234567" _ _ _ _ _)
           (ThrowError (new_Error "connect ECONNREFUSED")) _ _)).
  - repeat split; discriminate.
  - reflexivity.
  - reflexivity.
  - split; [reflexivity | discriminate].
  - discriminate.
  - reflexivity.
  - reflexivity.
Defined.

(** C6 as stated fails: when the verification service is unreachable, the
    default [validateCode] fails with the very message a rejected code
    produces, and the two runs end in the same redirect. *)
Lemma C6_counterexample :
  let unreachable :=
    authenticate Scenario.stringify Scenario.strategy_offline
      (Scenario.submit_code "123456") cookieSessionStorage Scenario.options in
  let rejected :=
    authenticate Scenario.stringify Scenario.strategy
      (Scenario.submit_code "000000") cookieSessionStorage Scenario.options in
  verificationChecks_create (client Scenario.strategy_offline) "VA00"
    "+15551234567" "123456"
    = Throw (ThrowError (new_Error "connect ECONNREFUSED")) /\
  validateCode Scenario.strategy "000000" "+15551234567"
    = Ok {| check_status := "pending" |} /\
  failures (trace unreachable) = [invalid_code_message] /\
  failures (trace rejected) = [invalid_code_message] /\
  outcome unreachable = outcome rejected.
Proof. cbn zeta. repeat split. Qed.

(** C7. For every request whose session holds no principal and whose form
    carries no phone field, or an empty one, the transition fails with the
    missing-phone message through the failure transition, whatever other
    fields (a code among them) the form carries. *)
Theorem C7_missing_phone_fails JSON_stringify self req st opts target fd :
  reaches_form req st opts target fd ->
  submitted fd "phone" = None ->
  let m := authenticate JSON_stringify self req st opts in
  trace m = failure_calls st req opts missing_phone_message /\
  outcome m = failure_result st req opts missing_phone_message None /\
  provider_calls (trace m) = [] /\
  failure_transition st req opts missing_phone_message m.
Proof.
  intros Hreach Hph m. subst m.
  rewrite (run_missing_phone _ _ _ _ _ _ _ Hreach Hph).
  split; [reflexivity|]. split; [reflexivity|].
  split; [apply provider_calls_failure|].
  exact (failure_transition_calls st req opts missing_phone_message None []
           eq_refl eq_refl).
Qed.

Lemma C7_witness :
  let req := MkRequest None (Ok [("code", EntryString "123456");
                                 ("phone", EntryString "")]) in
  let m := authenticate Scenario.stringify Scenario.strategy req
             cookieSessionStorage Scenario.options_no_failure in
  trace m = failure_calls cookieSessionStorage req Scenario.options_no_failure
              missing_phone_message /\
  outcome m = failure_result cookieSessionStorage req
                Scenario.options_no_failure missing_phone_message None /\
  provider_calls (trace m) = [] /\
  failure_transition cookieSessionStorage req Scenario.options_no_failure
    missing_phone_message m.
Proof.
  apply (C7_missing_phone_fails Scenario.stringify Scenario.strategy
           (MkRequest None (Ok [("code", EntryString "123456");
                                ("phone", EntryString "")]))
           cookieSessionStorage Scenario.options_no_failure "/account"
           [("code", EntryString "123456"); ("phone", EntryString "")]).
  - repeat split; discriminate.
  - reflexivity.
Defined.

(** C8, as the code has it.  For every phone-and-code submission where
    [validateCode] returns [approved] and the user-resolution callback
    throws an error, the error takes the failure transition: its message is
    flashed under the error key, and the run ends in a redirect to
    [failureRedirect] when one is configured, otherwise in a typed error
    with the same message and the original error as its cause. *)
Theorem C8_callback_error_takes_failure_transition
    JSON_stringify self req st opts target fd raw code p v e :
  reaches_form req st opts target fd ->
  submitted fd "phone" = Some raw ->
  submitted fd "code" = Some code ->
  normalizes self raw p ->
  validateCode self code p = Ok v ->
  check_status v = "approved" ->
  verify self p fd req = Throw (ThrowError e) ->
  let m := authenticate JSON_stringify self req st opts in
  let s := error_session st req opts (message e) in
  trace m = [CallFormatPhoneNumber raw; CallValidateCode code p;
             CallVerify p fd; CallFailure (message e); CommitSession s] /\
  failure_transition st req opts (message e) m /\
  (forall t, failureRedirect opts = Some t ->
     outcome m = Throw (ThrowResponse (redirect t (commitSession st s)))) /\
  (failureRedirect opts = None ->
     outcome m = Throw (ThrowError (MkError FailureError (message e) (Some e)))).
Proof.
  intros Hreach Hph Hco Hnorm Hval Hst Hver m s. subst m.
  rewrite (run_verify_failed _ _ _ _ _ _ _ _ _ _ _ _
             Hreach Hph Hco Hnorm Hval Hst Hver). fold s.
  split; [reflexivity|]. split.
  - exact (failure_transition_error st req opts e
             [CallFormatPhoneNumber raw; CallValidateCode code p; CallVerify p fd]
             eq_refl eq_refl).
  - split; [by intros t -> | by intros ->].
Qed.

Lemma C8_witness :
  let m := authenticate Scenario.stringify Scenario.strategy_no_lookup
             (Scenario.submit_code "123456") cookieSessionStorage
             Scenario.options_no_failure in
  outcome m =
    Throw (ThrowError
             (MkError FailureError "database unavailable"
                (Some (new_Error "database unavailable")))).
Proof.
  refine (proj2 (proj2 (proj2 (C8_callback_error_takes_failure_transition
           Scenario.stringify Scenario.strategy_no_lookup
           (Scenario.submit_code "123456") cookieSessionStorage
           Scenario.options_no_failure "/account" (Scenario.code_form "123456")
           "555-123-4567" "123456" "+15551234567"
           {| check_status := "approved" |}
           (new_Error "database unavailable") _ _ _ _ _ _ _))) _).
  - repeat split; discriminate.
  - reflexivity.
  - reflexivity.
  - split; [reflexivity | discriminate].
  - reflexivity.
  - reflexivity.
  - reflexivity.
  - reflexivity.
Defined.

(** C8 as stated fails: with a [failureRedirect] configured, the error the
    callback threw does not reach the caller; a redirect does. *)
Lemma C8_counterexample :
  let m := authenticate Scenario.stringify Scenario.strategy_no_lookup
             (Scenario.submit_code "123456") cookieSessionStorage
             Scenario.options in
  validateCode Scenario.strategy_no_lookup "123456" "+15551234567"
    = Ok {| check_status := "approved" |} /\
  verify Scenario.strategy_no_lookup "+15551234567"
    (Scenario.code_form "123456") (Scenario.submit_code "123456")
    = Throw (ThrowError (new_Error "database unavailable")) /\
  outcome m <> Throw (ThrowError (new_Error "database unavailable")) /\
  outcome m =
    Throw (ThrowResponse
             (redirect "/login"
                (Serialized
                   (Session.flash "auth:error" (JStr "database unavailable")
                      (Session.flash "twilio:phone" (JStr "+15551234567")
                         Session.empty))))).
Proof. cbn zeta. repeat split. discriminate. Qed.

(** C9. For every incoming request the transition issues at most one
    provider call: none at all, or one [sendCode] call, or one
    [validateCode] call; never both and never a second call of either, so a
    result is final and nothing is retried. *)
Theorem C9_at_most_one_provider_call JSON_stringify self req st opts :
  let calls :=
    provider_calls (trace (authenticate JSON_stringify self req st opts)) in
  calls = [] \/
  (exists p, calls = [CallSendCode p]) \/
  (exists c p, calls = [CallValidateCode c p]).
Proof.
  cbn zeta. unfold authenticate.
  destruct (Session.get _ _) as [v s].
  destruct (truthy _); cbn [negb]; [by left|].
  rewrite try_catch_quiet. apply try_block_calls.
Qed.

(** C10. For every request whose form carries a phone and a code field
    whose value is the empty string, the transition treats the code as
    absent: it calls [sendCode], not [validateCode], and flashes the pending
    phone exactly as for the same form without the code field. *)
Theorem C10_empty_code_is_no_code
    JSON_stringify self c st opts target fd raw p vi :
  let req := MkRequest c (Ok fd) in
  let phone_only := MkRequest c (Ok (without_field "code" fd)) in
  fromEntries fd !! "code" = Some (EntryString "") ->
  reaches_form req st opts target fd ->
  submitted fd "phone" = Some raw ->
  normalizes self raw p ->
  sendCode self p = Ok vi ->
  sessionErrorKey opts <> sessionPhoneKey self ->
  let m := authenticate JSON_stringify self req st opts in
  let s' := Session.unset (sessionErrorKey opts)
              (Session.flash (sessionPhoneKey self) (JStr p)
                 (session_handle st req opts)) in
  m = authenticate JSON_stringify self phone_only st opts /\
  provider_calls (trace m) = [CallSendCode p] /\
  trace m = [CallFormatPhoneNumber raw; CallSendCode p; CommitSession s'] /\
  outcome m = Throw (ThrowResponse (redirect target (commitSession st s'))) /\
  flashed s' !! sessionPhoneKey self = Some (JStr p).
Proof.
  intros req phone_only Hcode Hreach Hph Hnorm Hsend Hk m s'. subst m.
  assert (submitted fd "code" = None) as Hco.
  { unfold submitted. by rewrite Hcode. }
  assert (reaches_form phone_only st opts target (without_field "code" fd))
    as Hreach'.
  { destruct Hreach as (Hu & Ht & _).
    split; [exact Hu | split; [exact Ht | reflexivity]]. }
  rewrite (run_phone_only _ _ _ _ _ _ _ _ _ _ Hreach Hph Hco Hnorm Hsend).
  rewrite (run_phone_only JSON_stringify self phone_only st opts target
             (without_field "code" fd) raw p vi Hreach').
  - fold s'. repeat split.
    subst s'. simpl. by rewrite lookup_delete_ne, lookup_insert_eq.
  - by rewrite submitted_without_field_ne.
  - apply submitted_without_field_eq.
  - exact Hnorm.
  - exact Hsend.
Qed.

Lemma C10_witness :
  let req := MkRequest None (Ok (Scenario.code_form "")) in
  let m := authenticate Scenario.stringify Scenario.strategy req
             cookieSessionStorage Scenario.options in
  let s' := Session.unset "auth:error"
              (Session.flash "twilio:phone" (JStr "+15551234567")
                 (session_handle cookieSessionStorage req Scenario.options)) in
  m = authenticate Scenario.stringify Scenario.strategy
        (MkRequest None (Ok (without_field "code" (Scenario.code_form ""))))
        cookieSessionStorage Scenario.options /\
  provider_calls (trace m) = [CallSendCode "+15551234567"] /\
  trace m = [CallFormatPhoneNumber "555-123-4567"; CallSendCode "+15551234567";
             CommitSession s'] /\
  outcome m = Throw (ThrowResponse (redirect "/account" (Serialized s'))) /\
  flashed s' !! "twilio:phone" = Some (JStr "+15551234567").
Proof.
  apply (C10_empty_code_is_no_code Scenario.stringify Scenario.strategy None
           cookieSessionStorage Scenario.options "/account"
           (Scenario.code_form "") "555-123-4567" "+15551234567"
           {| verification_status := "pending" |}).
  - reflexivity.
  - repeat split; discriminate.
  - reflexivity.
  - split; [reflexivity | discriminate].
  - reflexivity.
  - discriminate.
Defined.

(** ** Further properties of the transition *)

Section MoreCases.

Variable JSON_stringify : thrown -> string.
Variable self : TwilioStrategy.
Variable req : request.
Variable st : SessionStorage.
Variable opts : AuthenticateOptions.

Abbreviation run := (authenticate JSON_stringify self req st opts).

Ltac enter_try Hreach :=
  let Hu := fresh "Hu" in
  let Ht := fresh "Ht" in
  let Hne := fresh "Hne" in
  let Hfd := fresh "Hfd" in
  destruct Hreach as (Hu & [Ht Hne] & Hfd);
  rewrite (authenticate_unauthenticated _ _ _ _ _ Hu);
  unfold try_block; rewrite Ht, (truthy_str_Some _ Hne), Hfd; run_step.

Ltac settle :=
  unfold failure_calls, failure_result, error_session, request_session;
  unfold try_catch, catch_block;
  let Hfr := fresh "Hfr" in
  destruct (failureRedirect opts) eqn:Hfr; run_step;
  cbn [status redirect Z.eqb Pos.eqb]; run_step; rewrite ?Hfr; run_step;
  rewrite ?app_nil_r; reflexivity.

Lemma run_formData_failed target e :
  holds_principal st req opts = false ->
  success_target opts target ->
  req_formData req = Throw (ThrowError e) ->
  run = ([CallFailure (message e);
          CommitSession (error_session st req opts (message e))],
         caught_result st req opts (message e) (Some e)).
Proof.
  intros Hu [Ht Hne] Hfd. rewrite (authenticate_unauthenticated _ _ _ _ _ Hu).
  unfold try_block, caught_result. rewrite Ht, (truthy_str_Some _ Hne), Hfd. run_step.
  settle.
Qed.

Lemma run_format_failed target fd raw e :
  reaches_form req st opts target fd ->
  submitted fd "phone" = Some raw ->
  formatPhoneNumber self raw = Throw (ThrowError e) ->
  run = ([CallFormatPhoneNumber raw; CallFailure (message e);
          CommitSession (error_session st req opts (message e))],
         caught_result st req opts (message e) (Some e)).
Proof.
  intros Hreach Hph Hfmt. enter_try Hreach. unfold caught_result.
  rewrite (phone_of_form_submitted _ _ _ Hph), Hfmt. run_step.
  settle.
Qed.

Lemma run_format_blank target fd raw :
  reaches_form req st opts target fd ->
  submitted fd "phone" = Some raw ->
  formatPhoneNumber self raw = Ok "" ->
  run = ((CallFormatPhoneNumber raw
            :: failure_calls st req opts missing_phone_message)%list,
         failure_result st req opts missing_phone_message None).
Proof.
  intros Hreach Hph Hfmt. enter_try Hreach.
  rewrite (phone_of_form_submitted _ _ _ Hph), Hfmt. run_step.
  cbn [truthy_str String.eqb negb].
  settle.
Qed.

Lemma run_send_failed target fd raw p e :
  reaches_form req st opts target fd ->
  submitted fd "phone" = Some raw ->
  submitted fd "code" = None ->
  normalizes self raw p ->
  sendCode self p = Throw (ThrowError e) ->
  run = ([CallFormatPhoneNumber raw; CallSendCode p; CallFailure (message e);
          CommitSession (error_session st req opts (message e))],
         caught_result st req opts (message e) (Some e)).
Proof.
  intros Hreach Hph Hco [Hfmt Hp] Hsend. enter_try Hreach. unfold caught_result.
  rewrite (phone_of_form_submitted _ _ _ Hph), Hfmt. run_step.
  rewrite (truthy_str_Some _ Hp), (code_of_form_missing _ Hco).
  run_step. rewrite Hsend. run_step.
  settle.
Qed.

Lemma run_verify_threw target fd raw code p v t :
  reaches_form req st opts target fd ->
  submitted fd "phone" = Some raw ->
  submitted fd "code" = Some code ->
  normalizes self raw p ->
  validateCode self code p = Ok v ->
  check_status v = "approved" ->
  verify self p fd req = Throw t ->
  run = try_catch
          ([CallFormatPhoneNumber raw; CallValidateCode code p; CallVerify p fd],
           Throw t)
          (catch_block JSON_stringify req st opts).
Proof.
  intros Hreach Hph Hco [Hfmt Hp] Hval Hst Hver. enter_try Hreach.
  rewrite (phone_of_form_submitted _ _ _ Hph), Hfmt. run_step.
  destruct (code_of_form_submitted _ _ Hco) as [-> Hc].
  rewrite (truthy_str_Some _ Hp), Hc. run_step.
  rewrite Hval. run_step. rewrite Hst. cbn [String.eqb Ascii.eqb Bool.eqb negb].
  rewrite Hver. run_step. reflexivity.
Qed.

Lemma run_verify_redirected target fd raw code p v t :
  reaches_form req st opts target fd ->
  submitted fd "phone" = Some raw ->
  submitted fd "code" = Some code ->
  normalizes self raw p ->
  validateCode self code p = Ok v ->
  check_status v = "approved" ->
  verify self p fd req = Throw t ->
  is_redirect t = true ->
  run = ([CallFormatPhoneNumber raw; CallValidateCode code p; CallVerify p fd],
         Throw t).
Proof.
  intros Hreach Hph Hco Hnorm Hval Hst Hver Hr.
  rewrite (run_verify_threw _ _ _ _ _ _ _ Hreach Hph Hco Hnorm Hval Hst Hver).
  unfold try_catch, catch_block.
  destruct t as [r|e|x]; try discriminate Hr. cbn [is_redirect] in Hr.
  rewrite Hr. run_step. reflexivity.
Qed.

Lemma run_verify_unknown target fd raw code p v t :
  reaches_form req st opts target fd ->
  submitted fd "phone" = Some raw ->
  submitted fd "code" = Some code ->
  normalizes self raw p ->
  validateCode self code p = Ok v ->
  check_status v = "approved" ->
  verify self p fd req = Throw t ->
  is_redirect t = false ->
  is_Error t = false ->
  run = ([CallFormatPhoneNumber raw; CallValidateCode code p; CallVerify p fd;
          CallFailure unknown_error_message;
          CommitSession (error_session st req opts unknown_error_message)],
         caught_result st req opts unknown_error_message
           (Some (new_Error (JSON_stringify t)))).
Proof.
  intros Hreach Hph Hco Hnorm Hval Hst Hver Hr He.
  rewrite (run_verify_threw _ _ _ _ _ _ _ Hreach Hph Hco Hnorm Hval Hst Hver).
  unfold try_catch, catch_block, caught_result, error_session, request_session.
  destruct t as [r|e|x]; try discriminate He; cbn [is_redirect] in Hr;
    rewrite ?Hr; run_step; destruct (failureRedirect opts); reflexivity.
Qed.

End MoreCases.

Lemma failure_transition_caught st req opts msg cause pre :
  failures pre = [] -> commits pre = [] ->
  failure_transition st req opts msg
    ((pre ++ [CallFailure msg; CommitSession (error_session st req opts msg)])%list,
     caught_result st req opts msg cause).
Proof.
  intros Hf Hc.
  split; unfold trace, outcome, failures, commits in *; cbn [fst snd];
    rewrite ?omap_app, ?Hf, ?Hc; unfold failure_signalled, caught_result;
    destruct (failureRedirect opts); simpl;
    try discriminate; repeat constructor.
  eexists; repeat split.
Qed.


(** ** The order of the collaborator calls *)

Section CallOrder.

Variable JSON_stringify : thrown -> string.
Variable self : TwilioStrategy.
Variable req : request.
Variable st : SessionStorage.
Variable opts : AuthenticateOptions.

Lemma collaborator_calls_app tr1 tr2 :
  collaborator_calls (tr1 ++ tr2) =
  (collaborator_calls tr1 ++ collaborator_calls tr2)%list.
Proof. apply List.filter_app. Qed.

Lemma call_failure_silent msg cause :
  collaborator_calls (trace (call_failure req st opts msg cause)) = [].
Proof. run_step. by destruct (failureRedirect opts). Qed.

Lemma catch_block_silent t :
  collaborator_calls (trace (catch_block JSON_stringify req st opts t)) = [].
Proof.
  unfold catch_block.
  destruct t as [r|e|x]; [destruct (status r =? 302)%Z|..];
    first [reflexivity | apply call_failure_silent].
Qed.

Lemma try_catch_silent (m : M jsval) :
  collaborator_calls
    (trace (try_catch m (catch_block JSON_stringify req st opts))) =
  collaborator_calls (trace m).
Proof.
  destruct m as [tr [a|t]]; [reflexivity|]. unfold try_catch.
  pose proof (catch_block_silent t) as Hq.
  destruct (catch_block _ _ _ _ t) as [tr' r]. unfold trace in *. cbn [fst] in *.
  by rewrite collaborator_calls_app, Hq, app_nil_r.
Qed.

Lemma trace_bind_ok {A B} (tr : list event) (a : A) (k : A -> M B) :
  trace (bind (tr, Ok a) k) = (tr ++ trace (k a))%list.
Proof. cbn [bind]. by destruct (k a). Qed.

Lemma try_block_shape session :
  call_shape self req
    (collaborator_calls (trace (try_block self req st opts session))).
Proof.
  unfold try_block.
  destruct (truthy_str (successRedirect opts)); cbn [negb]; [|constructor].
  destruct (req_formData req) as [fd|t] eqn:Hfd; [|constructor].
  rewrite trace_bind_ok. cbn beta. cbn [app].
  destruct (submitted fd "phone") as [raw|] eqn:Hph.
  2: { destruct (phone_of_form_missing self fd Hph) as (o & -> & Ho).
       unfold ret. rewrite trace_bind_ok. cbn beta. rewrite Ho. cbn [negb app].
       rewrite call_failure_silent. constructor. }
  rewrite (phone_of_form_submitted _ _ _ Hph). unfold call.
  destruct (formatPhoneNumber self raw) as [p|t] eqn:Hfmt.
  2: { by apply shape_format with fd. }
  rewrite trace_bind_ok, collaborator_calls_app. cbn beta.
  change (collaborator_calls [CallFormatPhoneNumber raw])
    with [CallFormatPhoneNumber raw].
  destruct (String.eqb p "") eqn:Hp; cbn [truthy_str negb]; rewrite Hp; cbn [negb].
  { rewrite call_failure_silent. by apply shape_format with fd. }
  apply String.eqb_neq in Hp. cbn [default from_option id].
  destruct (submitted fd "code") as [code|] eqn:Hco.
  - destruct (code_of_form_submitted _ _ Hco) as [-> Hc]. rewrite Hc.
    cbn [default from_option id].
    destruct (validateCode self code p) as [v|t] eqn:Hval.
    2: { by apply shape_validate with fd. }
    rewrite trace_bind_ok, collaborator_calls_app. cbn beta.
    change (collaborator_calls [CallValidateCode code p])
      with [CallValidateCode code p].
    destruct (String.eqb (check_status v) "approved") eqn:Hst; cbn [negb].
    + apply String.eqb_eq in Hst.
      destruct (verify self p fd req) as [u|t]; by apply shape_verify with v.
    + rewrite call_failure_silent. by apply shape_validate with fd.
  - rewrite (code_of_form_missing _ Hco).
    destruct (sendCode self p) as [vi|t]; by apply shape_send with fd.
Qed.

Lemma authenticate_shape :
  call_shape self req
    (collaborator_calls (trace (authenticate JSON_stringify self req st opts))).
Proof.
  unfold authenticate.
  destruct (Session.get _ _) as [v s].
  destruct (truthy _); cbn [negb]; [constructor|].
  rewrite try_catch_silent. apply try_block_shape.
Qed.

End CallOrder.

(** ** What the first read leaves of the session *)

Lemma session_get_frame name s :
  data (Session.get name s).2 = data s /\
  (forall k, k <> name -> flashed (Session.get name s).2 !! k = flashed s !! k).
Proof.
  unfold Session.get. destruct (data s !! name); [done|].
  destruct (flashed s !! name); [|done]. simpl. split; [done|].
  intros k Hk. by rewrite lookup_delete_ne.
Qed.

(** ** [Object.fromEntries] *)


(** ** A run without a principal never resolves *)

Section NeverResolves.

Context {base : StrategyBase}.
Variable JSON_stringify : thrown -> string.
Variable self : TwilioStrategy.
Variable req : request.
Variable st : SessionStorage.
Variable opts : AuthenticateOptions.

Lemma call_failure_throws msg cause :
  exists t, outcome (call_failure req st opts msg cause) = Throw t.
Proof.
  unfold call_failure, return_never. cbn [call bind].
  destruct (failure msg req st opts cause) as [tr [[]|t]]. cbn [bind outcome snd].
  by exists t.
Qed.

Lemma bind_throws {A B} (m : M A) (k : A -> M B) :
  (forall a, exists t, outcome (k a) = Throw t) ->
  exists t, outcome (bind m k) = Throw t.
Proof.
  intros Hk. destruct m as [tr [a|t]]; [|by exists t].
  cbn [bind]. destruct (Hk a) as [t Ht]. destruct (k a) as [tr' r].
  exists t. exact Ht.
Qed.

Lemma try_block_throws session :
  exists t, outcome (try_block self req st opts session) = Throw t.
Proof.
  unfold try_block.
  destruct (truthy_str (successRedirect opts)); cbn [negb]; [|by eexists].
  apply bind_throws; intros fd. apply bind_throws; intros ph.
  destruct (truthy_str ph); cbn [negb]; [|apply call_failure_throws].
  destruct (truthy_str _).
  - apply bind_throws; intros v.
    destruct (negb _); [apply call_failure_throws|].
    apply bind_throws; intros u. apply bind_throws; intros c. by eexists.
  - apply bind_throws; intros _. apply bind_throws; intros c. by eexists.
Qed.

Lemma catch_block_throws t :
  exists t', outcome (catch_block JSON_stringify req st opts t) = Throw t'.
Proof.
  unfold catch_block.
  destruct t as [r|e|x]; [destruct (status r =? 302)%Z|..];
    first [by eexists | apply call_failure_throws].
Qed.

Lemma unauthenticated_throws :
  holds_principal st req opts = false ->
  exists t, outcome (authenticate JSON_stringify self req st opts) = Throw t.
Proof.
  unfold holds_principal, stored_user, authenticate, request_session.
  destruct (Session.get _ _) as [v s]; cbn [fst]. intros ->. cbn [negb].
  destruct (try_block_throws s) as [t Ht].
  destruct (try_block self req st opts s) as [tr r]. cbn [outcome snd] in Ht.
  subst r. unfold try_catch.
  destruct (catch_block_throws t) as [t' Ht'].
  destruct (catch_block _ _ _ _ t) as [tr' r']. by exists t'.
Qed.

End NeverResolves.

(** ** Further theorems *)

(** X1. When [request.formData()] rejects with an error, the transition
    takes the failure transition with that error's message; neither the
    formatter nor the provider nor the callback is called. *)
Theorem formData_rejection_takes_failure_transition
    JSON_stringify self req st opts target e :
  holds_principal st req opts = false ->
  success_target opts target ->
  req_formData req = Throw (ThrowError e) ->
  let m := authenticate JSON_stringify self req st opts in
  trace m = [CallFailure (message e);
             CommitSession (error_session st req opts (message e))] /\
  outcome m = caught_result st req opts (message e) (Some e) /\
  failure_transition st req opts (message e) m.
Proof.
  intros Hu Ht Hfd m. subst m.
  rewrite (run_formData_failed _ _ _ _ _ _ _ Hu Ht Hfd).
  split; [reflexivity|]. split; [reflexivity|].
  exact (failure_transition_caught st req opts (message e) (Some e) []
           eq_refl eq_refl).
Qed.

Lemma formData_rejection_witness :
  let m := authenticate Scenario.stringify Scenario.strategy
             Variants.unreadable cookieSessionStorage Scenario.options in
  trace m = [CallFailure "Failed to parse body as FormData.";
             CommitSession
               (error_session cookieSessionStorage Variants.unreadable
                  Scenario.options "Failed to parse body as FormData.")] /\
  outcome m = caught_result cookieSessionStorage Variants.unreadable
                Scenario.options "Failed to parse body as FormData."
                (Some (new_Error "Failed to parse body as FormData.")) /\
  failure_transition cookieSessionStorage Variants.unreadable Scenario.options
    "Failed to parse body as FormData." m.
Proof.
  apply (formData_rejection_takes_failure_transition Scenario.stringify
           Scenario.strategy Variants.unreadable cookieSessionStorage
           Scenario.options "/account"
           (new_Error "Failed to parse body as FormData.")).
  - reflexivity.
  - split; [reflexivity | discriminate].
  - reflexivity.
Defined.

(** X2. With the default formatter, a phone the [phone] package finds
    invalid fails with "Invalid phone number." through the failure
    transition, and the provider is not called. *)
Theorem default_formatter_rejects_invalid_phone
    JSON_stringify twilio phone o v req st opts target fd raw :
  let self := new_TwilioStrategy twilio phone o v in
  opt_formatPhoneNumber o = None ->
  reaches_form req st opts target fd ->
  submitted fd "phone" = Some raw ->
  isValid (phone raw) = false ->
  let m := authenticate JSON_stringify self req st opts in
  trace m = [CallFormatPhoneNumber raw; CallFailure invalid_phone_message;
             CommitSession (error_session st req opts invalid_phone_message)] /\
  provider_calls (trace m) = [] /\
  failure_transition st req opts invalid_phone_message m.
Proof.
  intros self Hopt Hreach Hph Hinv m. subst m.
  assert (formatPhoneNumber self raw =
          Throw (ThrowError (new_Error invalid_phone_message))) as Hfmt.
  { subst self. unfold new_TwilioStrategy. cbn [formatPhoneNumber].
    rewrite Hopt. unfold or_default, defaultFormatPhoneNumber.
    by rewrite Hinv. }
  rewrite (run_format_failed _ _ _ _ _ _ _ _ _ Hreach Hph Hfmt).
  split; [reflexivity|]. split; [reflexivity|].
  exact (failure_transition_caught st req opts invalid_phone_message
           (Some (new_Error invalid_phone_message))
           [CallFormatPhoneNumber raw] eq_refl eq_refl).
Qed.

Lemma default_formatter_witness :
  let m := authenticate Scenario.stringify Scenario.strategy
             Variants.submit_invalid_phone cookieSessionStorage
             Scenario.options in
  trace m = [CallFormatPhoneNumber "12"; CallFailure invalid_phone_message;
             CommitSession
               (error_session cookieSessionStorage Variants.submit_invalid_phone
                  Scenario.options invalid_phone_message)] /\
  provider_calls (trace m) = [] /\
  failure_transition cookieSessionStorage Variants.submit_invalid_phone
    Scenario.options invalid_phone_message m.
Proof.
  apply (default_formatter_rejects_invalid_phone Scenario.stringify
           (Scenario.service true) Scenario.phone_package Scenario.config
           Scenario.find_user Variants.submit_invalid_phone
           cookieSessionStorage Scenario.options "/account"
           [("phone", EntryString "12")] "12").
  - reflexivity.
  - repeat split; discriminate.
  - reflexivity.
  - reflexivity.
Defined.

(** X3. A formatter that returns the empty string for a submitted phone
    makes the transition fail with the missing-phone message, after the
    formatter call and without a provider call. *)
Theorem blank_normalized_phone_is_missing_phone
    JSON_stringify self req st opts target fd raw :
  reaches_form req st opts target fd ->
  submitted fd "phone" = Some raw ->
  formatPhoneNumber self raw = Ok "" ->
  let m := authenticate JSON_stringify self req st opts in
  trace m = (CallFormatPhoneNumber raw
               :: failure_calls st req opts missing_phone_message)%list /\
  provider_calls (trace m) = [] /\
  failure_transition st req opts missing_phone_message m.
Proof.
  intros Hreach Hph Hfmt m. subst m.
  rewrite (run_format_blank _ _ _ _ _ _ _ _ Hreach Hph Hfmt).
  split; [reflexivity|]. split.
  - unfold trace; cbn [fst].
    change (provider_calls (CallFormatPhoneNumber raw :: ?l))
      with (provider_calls l).
    apply provider_calls_failure.
  - exact (failure_transition_calls st req opts missing_phone_message None
             [CallFormatPhoneNumber raw] eq_refl eq_refl).
Qed.

Lemma blank_normalized_phone_witness :
  let m := authenticate Scenario.stringify Variants.strategy_blanking
             Scenario.submit_phone cookieSessionStorage Scenario.options in
  trace m = (CallFormatPhoneNumber "555-123-4567"
               :: failure_calls cookieSessionStorage Scenario.submit_phone
                    Scenario.options missing_phone_message)%list /\
  provider_calls (trace m) = [] /\
  failure_transition cookieSessionStorage Scenario.submit_phone
    Scenario.options missing_phone_message m.
Proof.
  apply (blank_normalized_phone_is_missing_phone Scenario.stringify
           Variants.strategy_blanking Scenario.submit_phone
           cookieSessionStorage Scenario.options "/account"
           Scenario.phone_form "555-123-4567").
  - repeat split; discriminate.
  - reflexivity.
  - reflexivity.
Defined.

(** X4. An error thrown by [sendCode] takes the failure transition with
    that error's message: no pending phone is flashed and the session is
    changed in the error key only.  The default [sendCode] lets the
    client's rejection through as it is. *)
Theorem failed_sendCode_takes_failure_transition
    JSON_stringify self req st opts target fd raw p :
  reaches_form req st opts target fd ->
  submitted fd "phone" = Some raw ->
  submitted fd "code" = None ->
  normalizes self raw p ->
  sessionErrorKey opts <> sessionPhoneKey self ->
  let m := authenticate JSON_stringify self req st opts in
  (forall e,
     sendCode self p = Throw (ThrowError e) ->
     trace m = [CallFormatPhoneNumber raw; CallSendCode p;
                CallFailure (message e);
                CommitSession (error_session st req opts (message e))] /\
     failure_transition st req opts (message e) m /\
     flashed (error_session st req opts (message e)) !! sessionPhoneKey self =
       flashed (request_session st req) !! sessionPhoneKey self) /\
  (forall e,
     sendCode self = defaultSendCode (client self) (options_ self) ->
     verifications_create (client self) (serviceSID (options_ self)) p "sms"
       = Throw (ThrowError e) ->
     failure_transition st req opts (message e) m).
Proof.
  intros Hreach Hph Hco Hnorm Hk m.
  assert (forall e,
     sendCode self p = Throw (ThrowError e) ->
     trace m = [CallFormatPhoneNumber raw; CallSendCode p;
                CallFailure (message e);
                CommitSession (error_session st req opts (message e))] /\
     failure_transition st req opts (message e) m /\
     flashed (error_session st req opts (message e)) !! sessionPhoneKey self =
       flashed (request_session st req) !! sessionPhoneKey self) as Hgen.
  { intros e Hsend. subst m.
    rewrite (run_send_failed _ _ _ _ _ _ _ _ _ _ Hreach Hph Hco Hnorm Hsend).
    split; [reflexivity|]. split.
    - exact (failure_transition_caught st req opts (message e) (Some e)
               [CallFormatPhoneNumber raw; CallSendCode p] eq_refl eq_refl).
    - apply error_session_frame. congruence. }
  split; [exact Hgen|].
  intros e Hdef Hsvc. apply (Hgen e). rewrite Hdef. exact Hsvc.
Qed.

Lemma failed_sendCode_witness :
  let m := authenticate Scenario.stringify Scenario.strategy_offline
             Scenario.submit_phone cookieSessionStorage Scenario.options in
  failure_transition cookieSessionStorage Scenario.submit_phone
    Scenario.options "connect ECONNREFUSED" m.
Proof.
  refine (proj2 (failed_sendCode_takes_failure_transition
           Scenario.stringify Scenario.strategy_offline Scenario.submit_phone
           cookieSessionStorage Scenario.options "/account"
           Scenario.phone_form "555-123-4567" "+15551234567" _ _ _ _ _)
           (new_Error "connect ECONNREFUSED") _ _).
  - repeat split; discriminate.
  - reflexivity.
  - reflexivity.
  - split; [reflexivity | discriminate].
  - discriminate.
  - reflexivity.
  - reflexivity.
Defined.

(** X5. A 302 [Response] thrown by the user-resolution callback reaches the
    caller unchanged: [this.failure] is not called and no session is
    committed, so the principal is not stored and the pending phone stays. *)
Theorem callback_redirect_passes_unchanged
    JSON_stringify self req st opts target fd raw code p v t :
  reaches_form req st opts target fd ->
  submitted fd "phone" = Some raw ->
  submitted fd "code" = Some code ->
  normalizes self raw p ->
  validateCode self code p = Ok v ->
  check_status v = "approved" ->
  verify self p fd req = Throw t ->
  is_redirect t = true ->
  let m := authenticate JSON_stringify self req st opts in
  outcome m = Throw t /\
  trace m = [CallFormatPhoneNumber raw; CallValidateCode code p;
             CallVerify p fd] /\
  commits (trace m) = [] /\
  failures (trace m) = [].
Proof.
  intros Hreach Hph Hco Hnorm Hval Hst Hver Hr m. subst m.
  rewrite (run_verify_redirected _ _ _ _ _ _ _ _ _ _ _ _
             Hreach Hph Hco Hnorm Hval Hst Hver Hr).
  by repeat split.
Qed.

Lemma callback_redirect_witness :
  let m := authenticate Scenario.stringify Variants.strategy_signup
             (Scenario.submit_code "123456") cookieSessionStorage
             Scenario.options in
  outcome m = Throw (ThrowResponse Variants.signup) /\
  trace m = [CallFormatPhoneNumber "555-123-4567";
             CallValidateCode "123456" "+15551234567";
             CallVerify "+15551234567" (Scenario.code_form "123456")] /\
  commits (trace m) = [] /\
  failures (trace m) = [].
Proof.
  apply (callback_redirect_passes_unchanged Scenario.stringify
           Variants.strategy_signup (Scenario.submit_code "123456")
           cookieSessionStorage Scenario.options "/account"
           (Scenario.code_form "123456") "555-123-4567" "123456"
           "+15551234567" {| check_status := "approved" |}
           (ThrowResponse Variants.signup)).
  - repeat split; discriminate.
  - reflexivity.
  - reflexivity.
  - split; [reflexivity | discriminate].
  - reflexivity.
  - reflexivity.
  - reflexivity.
  - reflexivity.
Defined.

(** X6. A value thrown by the user-resolution callback that is neither an
    [Error] nor a 302 [Response] takes the failure transition with the
    message "Unknown Error."; the thrown value survives only as the JSON
    text in the cause. *)
Theorem callback_non_error_becomes_unknown_error
    JSON_stringify self req st opts target fd raw code p v t :
  reaches_form req st opts target fd ->
  submitted fd "phone" = Some raw ->
  submitted fd "code" = Some code ->
  normalizes self raw p ->
  validateCode self code p = Ok v ->
  check_status v = "approved" ->
  verify self p fd req = Throw t ->
  is_redirect t = false ->
  is_Error t = false ->
  let m := authenticate JSON_stringify self req st opts in
  failures (trace m) = [unknown_error_message] /\
  outcome m = caught_result st req opts unknown_error_message
                (Some (new_Error (JSON_stringify t))) /\
  failure_transition st req opts unknown_error_message m.
Proof.
  intros Hreach Hph Hco Hnorm Hval Hst Hver Hr He m. subst m.
  rewrite (run_verify_unknown _ _ _ _ _ _ _ _ _ _ _ _
             Hreach Hph Hco Hnorm Hval Hst Hver Hr He).
  split; [reflexivity|]. split; [reflexivity|].
  exact (failure_transition_caught st req opts unknown_error_message
           (Some (new_Error (JSON_stringify t)))
           [CallFormatPhoneNumber raw; CallValidateCode code p; CallVerify p fd]
           eq_refl eq_refl).
Qed.

Lemma callback_non_error_witness :
  let m := authenticate Scenario.stringify Variants.strategy_throws_string
             (Scenario.submit_code "123456") cookieSessionStorage
             Scenario.options_no_failure in
  failures (trace m) = [unknown_error_message] /\
  outcome m = Throw (ThrowError
                       (MkError FailureError unknown_error_message
                          (Some (new_Error "{}")))) /\
  failure_transition cookieSessionStorage (Scenario.submit_code "123456")
    Scenario.options_no_failure unknown_error_message m.
Proof.
  apply (callback_non_error_becomes_unknown_error Scenario.stringify
           Variants.strategy_throws_string (Scenario.submit_code "123456")
           cookieSessionStorage Scenario.options_no_failure "/account"
           (Scenario.code_form "123456") "555-123-4567" "123456"
           "+15551234567" {| check_status := "approved" |}
           (ThrowValue (JStr "no such user"))).
  - repeat split; discriminate.
  - reflexivity.
  - reflexivity.
  - split; [reflexivity | discriminate].
  - reflexivity.
  - reflexivity.
  - reflexivity.
  - reflexivity.
  - reflexivity.
Defined.

(** X7. In every run the formatter, the provider and the user-resolution
    callback are called in one fixed order and never twice: the formatter
    only on a submitted phone, the provider only with the formatter's
    non-empty answer, [sendCode] only without a code and [validateCode] only
    with the submitted code, the callback only after an approved check. *)
Theorem collaborator_calls_follow_protocol JSON_stringify self req st opts :
  call_shape self req
    (collaborator_calls (trace (authenticate JSON_stringify self req st opts))).
Proof. apply authenticate_shape. Qed.

(** X8. The user-resolution callback is called only after [validateCode]
    was called with the same phone and the submitted code and answered
    with the status "approved". *)
Theorem verify_called_only_after_approval
    JSON_stringify self req st opts p fd :
  let m := authenticate JSON_stringify self req st opts in
  In (CallVerify p fd) (trace m) ->
  exists code v,
    req_formData req = Ok fd /\
    submitted fd "code" = Some code /\
    In (CallValidateCode code p) (trace m) /\
    validateCode self code p = Ok v /\
    check_status v = "approved".
Proof.
  intros m Hin.
  assert (In (CallVerify p fd) (collaborator_calls (trace m))) as Hc.
  { apply List.filter_In. by split. }
  assert (forall e, In e (collaborator_calls (trace m)) -> In e (trace m)) as Hsub.
  { intros e He. by apply List.filter_In in He as [He _]. }
  pose proof (authenticate_shape JSON_stringify self req st opts) as Hs.
  fold m in Hs.
  inversion Hs as [Heq | fd' raw Hfd Hph Heq | fd' raw p' Hfd Hph Hfmt Hp Hco Heq
                   | fd' raw p' code Hfd Hph Hfmt Hp Hco Heq
                   | fd' raw p' code v Hfd Hph Hfmt Hp Hco Hval Hst Heq];
    rewrite <- Heq in Hc; simpl in Hc;
    repeat (destruct Hc as [Hc|Hc]; try discriminate Hc); try contradiction.
  injection Hc as -> ->.
  exists code, v. repeat split; try assumption.
  apply Hsub. rewrite <- Heq. simpl. auto.
Qed.

Lemma verify_called_witness :
  exists code v,
    req_formData (Scenario.submit_code "123456")
      = Ok (Scenario.code_form "123456") /\
    submitted (Scenario.code_form "123456") "code" = Some code /\
    In (CallValidateCode code "+15551234567")
       (trace (authenticate Scenario.stringify Scenario.strategy
                 (Scenario.submit_code "123456") cookieSessionStorage
                 Scenario.options)) /\
    validateCode Scenario.strategy code "+15551234567" = Ok v /\
    check_status v = "approved".
Proof.
  apply (verify_called_only_after_approval Scenario.stringify
           Scenario.strategy (Scenario.submit_code "123456")
           cookieSessionStorage Scenario.options "+15551234567"
           (Scenario.code_form "123456")).
  vm_compute. right. right. left. reflexivity.
Defined.

(** X9. Every provider call carries the formatter's non-empty answer for
    the submitted phone; [sendCode] is called only when no code was
    submitted, [validateCode] only with the submitted code. *)
Theorem provider_receives_normalized_phone
    JSON_stringify self req st opts e :
  In e (trace (authenticate JSON_stringify self req st opts)) ->
  is_provider_call e = true ->
  exists fd raw p,
    req_formData req = Ok fd /\
    submitted fd "phone" = Some raw /\
    formatPhoneNumber self raw = Ok p /\ p <> "" /\
    ((e = CallSendCode p /\ submitted fd "code" = None) \/
     (exists code, e = CallValidateCode code p /\
                   submitted fd "code" = Some code)).
Proof.
  intros Hin Hp.
  assert (In e (collaborator_calls
                  (trace (authenticate JSON_stringify self req st opts)))) as Hc.
  { apply List.filter_In. split; [exact Hin|]. by destruct e. }
  pose proof (authenticate_shape JSON_stringify self req st opts) as Hs.
  inversion Hs as [Heq | fd' raw Hfd Hph Heq | fd' raw p' Hfd Hph Hfmt Hp' Hco Heq
                   | fd' raw p' code Hfd Hph Hfmt Hp' Hco Heq
                   | fd' raw p' code v Hfd Hph Hfmt Hp' Hco Hval Hst Heq];
    rewrite <- Heq in Hc; simpl in Hc;
    repeat (destruct Hc as [Hc|Hc]; try (subst e; discriminate Hp));
    try contradiction; subst e;
    exists fd', raw, p'; repeat split; try assumption;
    first [by left | right; by exists code].
Qed.

Lemma provider_receives_witness :
  exists fd raw p,
    req_formData Scenario.submit_phone = Ok fd /\
    submitted fd "phone" = Some raw /\
    formatPhoneNumber Scenario.strategy raw = Ok p /\ p <> "" /\
    ((CallSendCode "+15551234567" = CallSendCode p /\
      submitted fd "code" = None) \/
     (exists code, CallSendCode "+15551234567" = CallValidateCode code p /\
                   submitted fd "code" = Some code)).
Proof.
  apply (provider_receives_normalized_phone Scenario.stringify
           Scenario.strategy Scenario.submit_phone cookieSessionStorage
           Scenario.options (CallSendCode "+15551234567")).
  - vm_compute. right. left. reflexivity.
  - reflexivity.
Defined.

(** X10. Whatever the inherited helpers do, [authenticate] returns a user
    only when the session already held a principal, and then it returns
    what [this.success] returns for that principal; a request without a
    principal never resolves, it always ends in a thrown value. *)
Theorem user_returned_only_from_session
    (base : StrategyBase) JSON_stringify self req st opts u :
  outcome (@authenticate base JSON_stringify self req st opts) = Ok u ->
  holds_principal st req opts = true /\
  outcome (@success base
             (Session.get (sessionKey opts) (request_session st req)).1
             req st opts) = Ok u.
Proof.
  intros Hok.
  destruct (holds_principal st req opts) eqn:Hu.
  2: { destruct (unauthenticated_throws (base := base) JSON_stringify self
                   req st opts Hu) as [t Ht].
       rewrite Ht in Hok. discriminate Hok. }
  split; [reflexivity|].
  unfold holds_principal, stored_user, authenticate, request_session in *.
  destruct (Session.get _ _) as [v s]. cbn [fst] in *.
  rewrite Hu in Hok. cbn [negb call bind] in Hok.
  assert (nullish_coalesce v JNull = v) as Hv by (by destruct v).
  rewrite Hv in Hok.
  destruct (success v req st opts) as [tr r]. exact Hok.
Qed.

Lemma user_returned_witness :
  holds_principal cookieSessionStorage Scenario.returning_visitor
    Scenario.options = true /\
  outcome (success
             (Session.get "user"
                (request_session cookieSessionStorage
                   Scenario.returning_visitor)).1
             Scenario.returning_visitor cookieSessionStorage
             Scenario.options) = Ok Scenario.the_user.
Proof.
  apply (user_returned_only_from_session spec_base Scenario.stringify
           Scenario.strategy Scenario.returning_visitor cookieSessionStorage
           Scenario.options Scenario.the_user).
  reflexivity.
Defined.

(** X11. On the approved path exactly one session is committed, and it
    differs from the session the request came with in the session key, the
    pending-phone key and the error key only. *)
Theorem approved_run_keeps_other_keys
    JSON_stringify self req st opts target fd raw code p v u :
  reaches_form req st opts target fd ->
  submitted fd "phone" = Some raw ->
  submitted fd "code" = Some code ->
  normalizes self raw p ->
  validateCode self code p = Ok v ->
  check_status v = "approved" ->
  verify self p fd req = Ok u ->
  let m := authenticate JSON_stringify self req st opts in
  exists s',
    commits (trace m) = [s'] /\
    failures (trace m) = [] /\
    outcome m = Throw (ThrowResponse (redirect target (commitSession st s'))) /\
    forall k,
      k <> sessionKey opts -> k <> sessionPhoneKey self ->
      k <> sessionErrorKey opts ->
      data s' !! k = data (request_session st req) !! k /\
      flashed s' !! k = flashed (request_session st req) !! k.
Proof.
  intros Hreach Hph Hco Hnorm Hval Hst Hver m. subst m.
  rewrite (run_approved _ _ _ _ _ _ _ _ _ _ _ _
             Hreach Hph Hco Hnorm Hval Hst Hver).
  eexists. split; [reflexivity|]. split; [reflexivity|]. split; [reflexivity|].
  intros k Hk1 Hk2 Hk3. unfold session_handle.
  destruct (session_get_frame (sessionKey opts) (request_session st req))
    as [Hd Hf].
  simpl. rewrite !lookup_delete_ne, lookup_insert_ne, Hd by congruence.
  split; [reflexivity|]. by apply Hf.
Qed.

Lemma approved_run_witness :
  exists s',
    commits (trace (authenticate Scenario.stringify Scenario.strategy
                      Variants.submit_code_with_cart cookieSessionStorage
                      Scenario.options)) = [s'] /\
    failures (trace (authenticate Scenario.stringify Scenario.strategy
                       Variants.submit_code_with_cart cookieSessionStorage
                       Scenario.options)) = [] /\
    outcome (authenticate Scenario.stringify Scenario.strategy
               Variants.submit_code_with_cart cookieSessionStorage
               Scenario.options)
      = Throw (ThrowResponse (redirect "/account" (Serialized s'))) /\
    forall k,
      k <> "user" -> k <> "twilio:phone" -> k <> "auth:error" ->
      data s' !! k = data Variants.cart_session !! k /\
      flashed s' !! k = flashed Variants.cart_session !! k.
Proof.
  apply (approved_run_keeps_other_keys Scenario.stringify Scenario.strategy
           Variants.submit_code_with_cart cookieSessionStorage
           Scenario.options "/account" (Scenario.code_form "123456")
           "555-123-4567" "123456" "+15551234567"
           {| check_status := "approved" |} Scenario.the_user).
  - repeat split; discriminate.
  - reflexivity.
  - reflexivity.
  - split; [reflexivity | discriminate].
  - reflexivity.
  - reflexivity.
  - reflexivity.
Defined.

(** X12. On the phone-only path exactly one session is committed; its set
    entries are those of the request's session except the error key, and
    its flashed entries are unchanged outside the session key, the
    pending-phone key and the error key. *)
Theorem phone_only_run_keeps_other_keys
    JSON_stringify self req st opts target fd raw p vi :
  reaches_form req st opts target fd ->
  submitted fd "phone" = Some raw ->
  submitted fd "code" = None ->
  normalizes self raw p ->
  sendCode self p = Ok vi ->
  let m := authenticate JSON_stringify self req st opts in
  exists s',
    commits (trace m) = [s'] /\
    failures (trace m) = [] /\
    outcome m = Throw (ThrowResponse (redirect target (commitSession st s'))) /\
    (forall k, k <> sessionErrorKey opts ->
               data s' !! k = data (request_session st req) !! k) /\
    (forall k,
       k <> sessionKey opts -> k <> sessionPhoneKey self ->
       k <> sessionErrorKey opts ->
       flashed s' !! k = flashed (request_session st req) !! k).
Proof.
  intros Hreach Hph Hco Hnorm Hsend m. subst m.
  rewrite (run_phone_only _ _ _ _ _ _ _ _ _ _ Hreach Hph Hco Hnorm Hsend).
  eexists. split; [reflexivity|]. split; [reflexivity|]. split; [reflexivity|].
  unfold session_handle.
  destruct (session_get_frame (sessionKey opts) (request_session st req))
    as [Hd Hf].
  split.
  - intros k Hk. simpl. by rewrite lookup_delete_ne, Hd.
  - intros k Hk1 Hk2 Hk3. simpl.
    rewrite lookup_delete_ne, lookup_insert_ne by congruence. by apply Hf.
Qed.

Lemma phone_only_run_witness :
  exists s',
    commits (trace (authenticate Scenario.stringify Scenario.strategy
                      Variants.submit_phone_with_cart cookieSessionStorage
                      Scenario.options)) = [s'] /\
    failures (trace (authenticate Scenario.stringify Scenario.strategy
                       Variants.submit_phone_with_cart cookieSessionStorage
                       Scenario.options)) = [] /\
    outcome (authenticate Scenario.stringify Scenario.strategy
               Variants.submit_phone_with_cart cookieSessionStorage
               Scenario.options)
      = Throw (ThrowResponse (redirect "/account" (Serialized s'))) /\
    (forall k, k <> "auth:error" ->
               data s' !! k = data Variants.cart_session !! k) /\
    (forall k,
       k <> "user" -> k <> "twilio:phone" -> k <> "auth:error" ->
       flashed s' !! k = flashed Variants.cart_session !! k).
Proof.
  apply (phone_only_run_keeps_other_keys Scenario.stringify Scenario.strategy
           Variants.submit_phone_with_cart cookieSessionStorage
           Scenario.options "/account" Scenario.phone_form
           "555-123-4567" "+15551234567"
           {| verification_status := "pending" |}).
  - repeat split; discriminate.
  - reflexivity.
  - reflexivity.
  - split; [reflexivity | discriminate].
  - reflexivity.
Defined.





(** X15. When the caller overrides [sendCode], [validateCode] and
    [formatPhoneNumber], a run does not depend on the client of the
    verification service or on the [phone] package at all. *)
Theorem overrides_replace_the_defaults
    JSON_stringify o verify_ req st opts send validate format
    twilio1 phone1 twilio2 phone2 :
  opt_sendCode o = Some send ->
  opt_validateCode o = Some validate ->
  opt_formatPhoneNumber o = Some format ->
  authenticate JSON_stringify (new_TwilioStrategy twilio1 phone1 o verify_)
    req st opts =
  authenticate JSON_stringify (new_TwilioStrategy twilio2 phone2 o verify_)
    req st opts.
Proof.
  intros Hs Hv Hf.
  unfold authenticate, try_block, phone_of_form, new_TwilioStrategy.
  cbn [sendCode validateCode formatPhoneNumber verify sessionPhoneKey].
  by rewrite Hs, Hv, Hf.
Qed.

Lemma overrides_witness :
  authenticate Scenario.stringify
    (new_TwilioStrategy (Scenario.service true) Scenario.phone_package
       Variants.custom_config Scenario.find_user)
    (Scenario.submit_code "42") cookieSessionStorage Scenario.options =
  authenticate Scenario.stringify
    (new_TwilioStrategy (Scenario.service false) (fun _ => {| isValid := false; phoneNumber := "" |})
       Variants.custom_config Scenario.find_user)
    (Scenario.submit_code "42") cookieSessionStorage Scenario.options.
Proof.
  apply (overrides_replace_the_defaults Scenario.stringify
           Variants.custom_config Scenario.find_user
           (Scenario.submit_code "42") cookieSessionStorage Scenario.options
           (fun _ => Ok {| verification_status := "pending" |})
           (fun code _ =>
              Ok {| check_status :=
                      if String.eqb code "42" then "approved" else "pending" |})
           (fun raw => Ok ("+1" ++ raw))); reflexivity.
Defined.

